(** * Shiptivity API server: validation and update of client records

    A shallow embedding of [src/server.js]: the Express handlers, the two
    validators and the SQLite table they talk to.  Callbacks are written in
    direct style with the store passed explicitly; every store call may fail,
    as the [err] branches of the source foresee. *)

From Stdlib Require Import ZArith NArith List Bool String Ascii Lia.
From Stdlib Require Import DecimalString DecimalN.
Import ListNotations.
Open Scope string_scope.
Open Scope Z_scope.

(** ** JavaScript values

    A [string] stands for a JavaScript string of code units below 256, one
    character for each. *)

Module JS.

(** The numbers the handlers compute with: what [parseInt] returns and what
    a numeric column holds when read.  They are IEEE doubles of integer value:
    [NaN], an integer that a double holds exactly, or an infinity (the sign is
    [true] for the negative one).  A literal of [Z] is read as [Int]. *)
Inductive number :=
| NaN
| Int (z : Z)
| Infinity (negative : bool).

Coercion Int : Z >-> number.

Definition isNaN (n : number) : bool :=
  match n with NaN => true | _ => false end.

(** [a < b] on numbers: false as soon as one side is [NaN]. *)
Definition lt (a b : number) : bool :=
  match a, b with
  | Int x, Int y => x <? y
  | Infinity neg, Int _ => neg
  | Int _, Infinity neg => negb neg
  | Infinity n1, Infinity n2 => n1 && negb n2
  | _, _ => false
  end.

(** [a === b] on numbers: [NaN] equals nothing. *)
Definition strict_eq (a b : number) : bool :=
  match a, b with
  | Int x, Int y => x =? y
  | Infinity n1, Infinity n2 => Bool.eqb n1 n2
  | _, _ => false
  end.

(** The double nearest to a positive integer [a], ties to the even
    significand: [a] is cut to its 53 leading bits [q], and [q] goes up when
    the rest [r] is more than half a unit, or half a unit with [q] odd. *)
Definition round_magnitude (a : Z) : Z :=
  let e := Z.log2 a - 52 in
  let q := a / 2 ^ e in
  let r := a mod 2 ^ e in
  if (2 ^ e <? 2 * r) || ((2 * r =? 2 ^ e) && Z.odd q)
  then (q + 1) * 2 ^ e else q * 2 ^ e.

(** The Number value of a mathematical integer: itself up to 2^53, the
    nearest double beyond, an infinity from 2^1024 on. *)
Definition to_double (z : Z) : number :=
  let a := Z.abs z in
  if a <=? 2 ^ 53 then Int z
  else
    let v := round_magnitude a in
    if 2 ^ 1024 <=? v then Infinity (z <? 0) else Int (Z.sgn z * v).

(** A number that a double holds. *)
Definition is_double (n : number) : Prop :=
  match n with
  | Int z => to_double z = Int z
  | _ => True
  end.

Arguments to_double : simpl never.
Arguments round_magnitude : simpl never.

(** A finite number of a JSON body, by the decimal digits that
    [Number::toString] prints: the value is [coeff * 10^(point - k)] where [k]
    is the number of digits of [coeff]; zero is [coeff = 0]. *)
Record decimal := { negative : bool; coeff : N; point : Z }.

(** A parsed JSON value, as [express.json()] leaves it in [req.body];
    [JInfinity] is what [JSON.parse] makes of a number too large for a
    double. *)
#[warnings="-register-all"] Inductive json :=
| JNull
| JBool (b : bool)
| JNumber (d : decimal)
| JInfinity (neg : bool)
| JString (s : string)
| JArray (l : list json)
| JObject (l : list (string * json)).

(** A property of [req.body]: [None] is [undefined] (the key is missing). *)
Definition value := option json.

(** ToBoolean, the test of [if (status)]. *)
Definition truthy (v : value) : bool :=
  match v with
  | None => false
  | Some JNull => false
  | Some (JBool b) => b
  | Some (JNumber d) => negb (coeff d =? 0)%N
  | Some (JInfinity _) => true
  | Some (JString s) => negb (s =? "")%string
  | Some (JArray _) => true
  | Some (JObject _) => true
  end.

(** [arr.includes(v)] for an array of strings: SameValueZero, so only a
    string equal to an element is found. *)
Definition includes (arr : list string) (v : value) : bool :=
  match v with
  | Some (JString s) => existsb (String.eqb s) arr
  | _ => false
  end.

Definition digits_of (n : N) : string :=
  NilEmpty.string_of_uint (N.to_uint n).

Fixpoint zeros (n : nat) : string :=
  match n with O => "" | S m => String "0" (zeros m) end.

Definition string_of_nat_Z (z : Z) : string :=
  match z with
  | Z0 => "0"
  | _ => digits_of (Z.abs_N z)
  end.

(** Number::toString at radix 10 (ECMA-262, 6.1.6.1.20). *)
Definition Number_toString (d : decimal) : string :=
  if (coeff d =? 0)%N then "0" else
  let ds := digits_of (coeff d) in
  let k := Z.of_nat (String.length ds) in
  let n := point d in
  let body :=
    if (k <=? n) && (n <=? 21) then
      ds ++ zeros (Z.to_nat (n - k))
    else if (0 <? n) && (n <=? 21) then
      substring 0 (Z.to_nat n) ds ++ "." ++
      substring (Z.to_nat n) (Z.to_nat (k - n)) ds
    else if (-6 <? n) && (n <=? 0) then
      "0." ++ zeros (Z.to_nat (- n)) ++ ds
    else
      let e := n - 1 in
      let sgn := if e <? 0 then "-" else "+" in
      if k =? 1 then ds ++ "e" ++ sgn ++ string_of_nat_Z e
      else substring 0 1 ds ++ "." ++ substring 1 (Z.to_nat (k - 1)) ds
           ++ "e" ++ sgn ++ string_of_nat_Z e
  in
  if negative d then "-" ++ body else body.

Definition option_bind {A B} (o : option A) (f : A -> option B) : option B :=
  match o with Some a => f a | None => None end.

(** ToString of a JSON value; [None] when the conversion throws a TypeError
    (an object whose own [toString] property hides the callable one: no
    JSON value is callable, and [valueOf] returns the object itself). *)
Fixpoint ToString (v : json) : option string :=
  match v with
  | JNull => Some "null"
  | JBool true => Some "true"
  | JBool false => Some "false"
  | JNumber d => Some (Number_toString d)
  | JInfinity neg => Some (if neg then "-Infinity" else "Infinity")
  | JString s => Some s
  | JArray l =>
      (fix join (l : list json) : option string :=
         let element x :=
           match x with JNull => Some "" | _ => ToString x end in
         match l with
         | [] => Some ""
         | [x] => element x
         | x :: rest =>
             option_bind (element x) (fun sx =>
             option_bind (join rest) (fun sr => Some (sx ++ "," ++ sr)))
         end) l
  | JObject l =>
      if existsb (fun kv => fst kv =? "toString")%string l then None
      else Some "[object Object]"
  end.

(** White space that [parseInt] skips.  A character of a [string] stands for
    a code unit below 256; of StrWhiteSpaceChar these are TAB, LF, VT, FF, CR,
    SP and NBSP. *)
Definition is_white_space (c : ascii) : bool :=
  let n := nat_of_ascii c in
  (n =? 32)%nat || ((9 <=? n)%nat && (n <=? 13)%nat) || (n =? 160)%nat.

Fixpoint trim_start (s : string) : string :=
  match s with
  | String c r => if is_white_space c then trim_start r else s
  | EmptyString => s
  end.

Definition digit_value (c : ascii) : option Z :=
  let n := Z.of_nat (nat_of_ascii c) in
  if (48 <=? n) && (n <=? 57) then Some (n - 48)
  else if (97 <=? n) && (n <=? 122) then Some (n - 87)
  else if (65 <=? n) && (n <=? 90) then Some (n - 55)
  else None.

(** The value of the longest prefix of radix-[R] digits; [acc] is [None]
    until a digit has been read. *)
Fixpoint read_digits (R : Z) (s : string) (acc : option Z) : option Z :=
  match s with
  | String c r =>
      match digit_value c with
      | Some d =>
          if d <? R then
            read_digits R r
              (Some (R * match acc with Some a => a | None => 0 end + d))
          else acc
      | None => acc
      end
  | EmptyString => acc
  end.

Definition strip_hex_prefix (s : string) : option string :=
  match s with
  | String "0" (String "x" r) => Some r
  | String "0" (String "X" r) => Some r
  | _ => None
  end.

(** [parseInt(string, radix)] on a string (ECMA-262, 19.2.5); [radix = 0]
    stands for a missing radix. *)
Definition parseInt_string (input : string) (radix : Z) : number :=
  let s := trim_start input in
  let '(sign, s) :=
    match s with
    | String "-" r => (-1, r)
    | String "+" r => (1, r)
    | _ => (1, s)
    end in
  if negb (radix =? 0) && ((radix <? 2) || (36 <? radix)) then NaN else
  let strip := (radix =? 0) || (radix =? 16) in
  let R := if radix =? 0 then 10 else radix in
  let '(R, s) :=
    if strip then
      match strip_hex_prefix s with
      | Some r => (16, r)
      | None => (R, s)
      end
    else (R, s) in
  match read_digits R s None with
  | None => NaN
  | Some m => to_double (sign * m)
  end.

(** [parseInt(v)] on a property of the body: the value is converted to a
    string first; [None] when that conversion throws. *)
Definition parseInt (v : value) (radix : Z) : option number :=
  match v with
  | None => Some (parseInt_string "undefined" radix)
  | Some j => option_map (fun s => parseInt_string s radix) (ToString j)
  end.

End JS.

Import JS.

(** ** The record store *)

Module Store.

(** A row of the [clients] table.  The identifier is the integer SQLite
    keeps; the priority is the number the column gives when read. *)
Record client := mkClient {
  id : Z;
  name : string;
  description : string;
  status : string;
  priority : number
}.

(** A value bound to a [?] of a statement: a property of the body pushed as
    it is, or a number that [parseInt] returned. *)
Inductive param :=
| PValue (v : value)
| PNumber (n : number).

(** The table, and the outcome of each store call still to come: [Some msg]
    is a call that fails with [err.message = msg]; past the end of the list
    every call succeeds. *)
Record store := mkStore {
  rows : list client;
  outcomes : list (option string)
}.

Definition next_outcome (s : store) : option string * store :=
  match outcomes s with
  | [] => (None, s)
  | o :: os => (o, {| rows := rows s; outcomes := os |})
  end.

(** SQL [id = ?] against a bound number: SQLite compares the integer of the
    column with the double exactly. *)
Definition id_matches (n : number) (c : client) : bool :=
  match n with
  | Int z => id c =? z
  | _ => false
  end.

(** [db.get('SELECT * FROM clients WHERE id = ?', [id], cb)]: the error, or
    the first matching row if there is one. *)
Definition db_get_by_id (n : number) (s : store)
  : (string + option client) * store :=
  let '(o, s') := next_outcome s in
  match o with
  | Some e => (inl e, s')
  | None => (inr (find (id_matches n) (rows s)), s')
  end.

(** [db.all('SELECT * FROM clients', [], cb)]. *)
Definition db_all (s : store) : (string + list client) * store :=
  let '(o, s') := next_outcome s in
  match o with
  | Some e => (inl e, s')
  | None => (inr (rows s), s')
  end.

(** [db.all('SELECT * FROM clients WHERE status = ?', [status], cb)]. *)
Definition db_all_by_status (st : string) (s : store)
  : (string + list client) * store :=
  let '(o, s') := next_outcome s in
  match o with
  | Some e => (inl e, s')
  | None => (inr (filter (fun c => status c =? st)%string (rows s)), s')
  end.

(** One [column = ?] of a SET clause with the value bound to it, as the
    change it makes to a row.  The model covers the bindings the server
    issues (a string for [status], a number other than [NaN] for
    [priority]); SQLite is made to refuse any other. *)
Definition set_column (u : string) (p : param) : option (client -> client) :=
  if (u =? "status = ?")%string then
    match p with
    | PValue (Some (JString st)) =>
        Some (fun c => mkClient (id c) (name c) (description c) st (priority c))
    | _ => None
    end
  else if (u =? "priority = ?")%string then
    match p with
    | PNumber NaN => None
    | PNumber w =>
        Some (fun c => mkClient (id c) (name c) (description c) (status c) w)
    | _ => None
    end
  else None.

(** The SET clause [updates.join(', ')], applied left to right with the
    leading parameters; what is left of the parameters must be the one bound
    to [WHERE id = ?]. *)
Fixpoint set_clause (updates : list string) (params : list param)
  : option ((client -> client) * number) :=
  match updates, params with
  | [], [PNumber n] => Some (fun c => c, n)
  | u :: us, p :: ps =>
      match set_column u p, set_clause us ps with
      | Some f, Some (g, n) => Some (fun c => g (f c), n)
      | _, _ => None
      end
  | _, _ => None
  end.

(** The statement as SQLite prepares it: [None] (an error) when the SET
    clause is empty, names an unknown column or does not have one parameter
    for each [?]. *)
Definition prepare_update (updates : list string) (params : list param)
  : option ((client -> client) * number) :=
  if Nat.eqb (List.length updates) 0 then None
  else set_clause updates params.

(** [db.run(`UPDATE clients SET ${updates.join(', ')} WHERE id = ?`, params,
    cb)]: the error if any, and the store after the call. *)
Definition db_run_update (updates : list string) (params : list param)
  (s : store) : option string * store :=
  let '(o, s') := next_outcome s in
  match o with
  | Some e => (Some e, s')
  | None =>
      match prepare_update updates params with
      | Some (f, n) =>
          (None,
           {| rows := map (fun c => if id_matches n c then f c else c) (rows s);
              outcomes := outcomes s' |})
      | None => (Some "SQLITE_ERROR", s')
      end
  end.

End Store.

Import Store.

(** ** The server *)

Module Server.

(** A response body: an object literal of strings, the rows of the table, a
    single row, or nothing ([res.send(undefined)]).  A row in a body stands
    for the object the driver makes of it: an identifier beyond 2^53 reaches
    the client as the nearest double. *)
Definition message_object := list (string * string).

Inductive body :=
| Object (m : message_object)
| Rows (l : list client)
| Row (c : client)
| NoBody.

(** What a request ends in: [res.status(code).send(body)], or an exception
    thrown inside the handler. *)
Inductive response :=
| Send (code : Z) (b : body)
| Throws.

(** [{ valid, messageObj }]; [{ valid: true }] has no [messageObj]. *)
Record validation := mkValidation {
  valid : bool;
  messageObj : option message_object
}.

Definition send_message (code : Z) (m : option message_object) : response :=
  match m with
  | Some o => Send code (Object o)
  | None => Send code NoBody
  end.

(** [validateId] (lines 29-57), in direct style. *)
Definition validateId (n : number) (s : store) : validation * store :=
  if isNaN n then
    (mkValidation false
       (Some [("message", "Invalid id provided.");
              ("long_message", "Id can only be integer.")]), s)
  else
    let '(r, s') := db_get_by_id n s in
    match r with
    | inl e =>
        (mkValidation false
           (Some [("message", "DB error."); ("long_message", e)]), s')
    | inr None =>
        (mkValidation false
           (Some [("message", "Invalid id provided.");
                  ("long_message", "Cannot find client with that id.")]), s')
    | inr (Some _) => (mkValidation true None, s')
    end.

(** [validatePriority] (lines 60-71). *)
Definition validatePriority (p : number) : validation :=
  if isNaN p || lt p (Int 1) then
    mkValidation false
      (Some [("message", "Invalid priority provided.");
             ("long_message", "Priority can only be positive integer.")])
  else mkValidation true None.

Definition statuses : list string := ["backlog"; "in-progress"; "complete"].

(** [app.get('/api/v1/clients')] (lines 79-98); [q_status] is
    [req.query.status]. *)
Definition get_clients (q_status : value) (s : store) : response * store :=
  if truthy q_status && negb (includes statuses q_status) then
    (Send 400
       (Object [("message", "Invalid status provided.");
                ("long_message",
                 "Status can only be one of the following: [backlog | in-progress | complete].")]),
     s)
  else
    let '(r, s') :=
      if truthy q_status then
        match q_status with
        | Some (JString st) => db_all_by_status st s
        | _ => db_all s  (* not reached: [includes] holds of strings only *)
        end
      else db_all s in
    match r with
    | inl e =>
        (Send 500 (Object [("message", "DB error."); ("long_message", e)]), s')
    | inr l => (Send 200 (Rows l), s')
    end.

(** [app.get('/api/v1/clients/:id')] (lines 101-112); [raw] is
    [req.params.id], and [others] is what other requests do to the store
    while this one waits between the answer to [validateId]'s lookup and its
    own [db.get]. *)
Definition get_client_among (others : store -> store) (raw : string)
  (s : store) : response * store :=
  let n := parseInt_string raw 10 in
  let '(v, s1) := validateId n s in
  if negb (valid v) then (send_message 400 (messageObj v), s1) else
  let '(r, s2) := db_get_by_id n (others s1) in
  match r with
  | inl e =>
      (Send 500 (Object [("message", "DB error."); ("long_message", e)]), s2)
  | inr (Some c) => (Send 200 (Row c), s2)
  | inr None => (Send 200 NoBody, s2)
  end.

(** The handler on its own: nothing else touches the store. *)
Definition get_client (raw : string) (s : store) : response * store :=
  get_client_among (fun s1 => s1) raw s.

(** Lines 129-154 of the update handler: the SET clause and its parameters
    collected from the body, or the response that ends the request. *)
Definition collect_updates (b_status b_priority : value)
  : response + (list string * list param) :=
  let updates : list string := [] in
  let params : list param := [] in
  let after_status :=
    if truthy b_status then
      if negb (includes statuses b_status) then
        inl (Send 400
               (Object [("message", "Invalid status provided.");
                        ("long_message",
                         "Status must be one of: backlog, in-progress, complete.")]))
      else inr ((updates ++ ["status = ?"])%list,
                (params ++ [PValue b_status])%list)
    else inr (updates, params) in
  match after_status with
  | inl r => inl r
  | inr (updates, params) =>
      let after_priority :=
        match b_priority with
        | Some _ =>
            match parseInt b_priority 0 with
            | None => inl Throws
            | Some p =>
                let v := validatePriority p in
                if negb (valid v) then inl (send_message 400 (messageObj v))
                else inr ((updates ++ ["priority = ?"])%list,
                          (params ++ [PNumber p])%list)
            end
        | None => inr (updates, params)
        end in
      match after_priority with
      | inl r => inl r
      | inr (updates, params) =>
          if Nat.eqb (List.length updates) 0 then
            inl (Send 400 (Object [("message", "No valid fields to update.")]))
          else inr (updates, params)
      end
  end.

(** The body of a PUT request with the path parameter. *)
Record put_request := mkPut {
  params_id : string;
  body_status : value;
  body_priority : value
}.

(** The callback that [validateId] calls on a valid identifier (lines
    121-167): re-read the table, look the client up, collect the changes,
    write them and read the table again. *)
Definition put_update (n : number) (req : put_request) (s : store)
  : response * store :=
  let '(r, s2) := db_all s in
  match r with
  | inl e =>
      (Send 500 (Object [("message", "DB error."); ("long_message", e)]), s2)
  | inr clients =>
      match find (fun c => strict_eq (to_double (id c)) n) clients with
      | None => (Send 404 (Object [("message", "Client not found.")]), s2)
      | Some _ =>
          match collect_updates (body_status req) (body_priority req) with
          | inl r => (r, s2)
          | inr (updates, params) =>
              let params := (params ++ [PNumber n])%list in
              let '(err, s3) := db_run_update updates params s2 in
              match err with
              | Some e =>
                  (Send 500 (Object [("message", "DB update error.");
                                     ("long_message", e)]), s3)
              | None =>
                  let '(r', s4) := db_all s3 in
                  match r' with
                  | inl e =>
                      (Send 500 (Object [("message", "DB fetch error.");
                                         ("long_message", e)]), s4)
                  | inr updatedClients => (Send 200 (Rows updatedClients), s4)
                  end
              end
          end
      end
  end.

(** [app.put('/api/v1/clients/:id')] (lines 115-169), with what other
    requests do to the store while this one waits between the answer to
    [validateId]'s lookup and its own [db.all]: [others]. *)
Definition put_client_among (others : store -> store) (req : put_request)
  (s : store) : response * store :=
  let n := parseInt_string (params_id req) 10 in
  let '(v, s1) := validateId n s in
  if negb (valid v) then (send_message 400 (messageObj v), s1)
  else put_update n req (others s1).

(** The handler on its own: nothing else touches the store. *)
Definition put_client (req : put_request) (s : store) : response * store :=
  put_client_among (fun s1 => s1) req s.

End Server.

Import Server.

(** ** Vocabulary of the specification *)

(** The error responses, by the names the specification gives them. *)
Definition InvalidIdentifier_not_integer : response :=
  Send 400 (Object [("message", "Invalid id provided.");
                    ("long_message", "Id can only be integer.")]).

Definition InvalidIdentifier_not_found : response :=
  Send 400 (Object [("message", "Invalid id provided.");
                    ("long_message", "Cannot find client with that id.")]).

Definition InvalidStatus : response :=
  Send 400 (Object [("message", "Invalid status provided.");
                    ("long_message",
                     "Status must be one of: backlog, in-progress, complete.")]).


Definition NoFieldsToUpdate : response :=
  Send 400 (Object [("message", "No valid fields to update.")]).

Definition RecordNotFound : response :=
  Send 404 (Object [("message", "Client not found.")]).

(** Whether the body of a response is an object with the key [k]. *)
Definition has_key (k : string) (r : response) : bool :=
  match r with
  | Send _ (Object m) => existsb (fun kv => fst kv =? k)%string m
  | _ => false
  end.

(** A response that rejects the request: any status code but 200. *)
Definition rejected (r : response) : bool :=
  match r with
  | Send code _ => negb (code =? 200)
  | Throws => false
  end.

(** The path parameter names a row of the table. *)
Definition existing (raw : string) (s : store) : bool :=
  existsb (id_matches (parseInt_string raw 10)) (rows s).

(** The next [k] store calls succeed. *)
Definition succeed (k : nat) (s : store) : bool :=
  forallb (fun o => match o with None => true | Some _ => false end)
          (firstn k (outcomes s)).

(** The status and the priority a row has once the handler has applied a
    body to it: a truthy status replaces the stored one, a priority other
    than [undefined] is replaced by the number [parseInt] reads in it. *)
Definition new_status (b_status : value) (old : string) : string :=
  if truthy b_status then
    match b_status with Some (JString st) => st | _ => old end
  else old.

Definition new_priority (b_priority : value) (old : number) : number :=
  match b_priority with
  | None => old
  | Some _ =>
      match parseInt b_priority 0 with
      | Some w => w
      | None => old
      end
  end.

Definition changed (req : put_request) (c : client) : client :=
  mkClient (id c) (name c) (description c)
           (new_status (body_status req) (status c))
           (new_priority (body_priority req) (priority c)).

(** The table after the update of the row named by [n]. *)
Definition updated (n : number) (req : put_request) (l : list client)
  : list client :=
  map (fun c => if id_matches n c then changed req c else c) l.

(** The responses the update handler has. *)
Inductive put_outcome (req : put_request) : response -> Prop :=
| put_not_integer : put_outcome req InvalidIdentifier_not_integer
| put_unknown : put_outcome req InvalidIdentifier_not_found
| put_lookup_error e :
    put_outcome req
      (Send 400 (Object [("message", "DB error."); ("long_message", e)]))
| put_read_error e :
    put_outcome req
      (Send 500 (Object [("message", "DB error."); ("long_message", e)]))
| put_not_found : put_outcome req RecordNotFound
| put_write_error e :
    put_outcome req
      (Send 500 (Object [("message", "DB update error."); ("long_message", e)]))
| put_fetch_error e :
    put_outcome req
      (Send 500 (Object [("message", "DB fetch error."); ("long_message", e)]))
| put_ok l : put_outcome req (Send 200 (Rows l))
| put_fields r :
    collect_updates (body_status req) (body_priority req) = inl r ->
    put_outcome req r.

(** An identifier input that is an integer, in the words of the
    specification: an optional sign and then decimal digits, nothing else. *)
Definition is_decimal_digit (c : ascii) : bool :=
  let n := nat_of_ascii c in (48 <=? n)%nat && (n <=? 57)%nat.

Fixpoint all_decimal_digits (s : string) : bool :=
  match s with
  | EmptyString => true
  | String c r => is_decimal_digit c && all_decimal_digits r
  end.

Definition unsigned (s : string) : string :=
  match s with
  | String "-" r => r
  | String "+" r => r
  | _ => s
  end.

Definition integer_input (raw : string) : bool :=
  negb (unsigned raw =? "")%string && all_decimal_digits (unsigned raw).

(** What [parseInt] asks of an input at radix 10: after the white space and
    the sign, a decimal digit comes first. *)
Definition leading_integer (raw : string) : bool :=
  match unsigned (trim_start raw) with
  | String c _ => is_decimal_digit c
  | EmptyString => false
  end.

(** A priority as the specification wants it (4.3), in its words: one that
    parses as an integer and is at least 1.  A JSON number is an integer when
    its digits, as [Number::toString] prints them, end at or before the
    decimal point; a string is one when it is an optional sign and decimal
    digits. *)
Definition integer_value (s : string) : option Z :=
  if integer_input s then
    match read_digits 10 (unsigned s) None with
    | Some m => Some (match s with String "-" _ => - m | _ => m end)
    | None => None
    end
  else None.

Definition positive_integer (v : json) : bool :=
  match v with
  | JNumber d =>
      negb (negative d) && negb (coeff d =? 0)%N &&
      (Z.of_nat (String.length (digits_of (coeff d))) <=? point d)
  | JString s =>
      match integer_value s with
      | Some z => 1 <=? z
      | None => false
      end
  | _ => false
  end.

(** ** Vocabulary of the further properties *)

(** The invariant of the data model on a row: a status of the set and a
    priority of at least 1. *)
Definition at_least_one (w : number) : bool :=
  match w with
  | Int z => 1 <=? z
  | Infinity negative => negb negative
  | NaN => false
  end.

Definition well_kept (c : client) : bool :=
  existsb (String.eqb (status c)) statuses && at_least_one (priority c).

(** What the update handler has no statement for: the identifier, the name
    and the description of a row. *)
Definition identity (c : client) : Z * string * string :=
  (id c, name c, description c).

(** The integer a sequence of decimal digits denotes, most significant digit
    first, continuing [acc]. *)
Fixpoint uint_value (d : Decimal.uint) (acc : Z) : Z :=
  match d with
  | Decimal.Nil => acc
  | Decimal.D0 l => uint_value l (10 * acc)
  | Decimal.D1 l => uint_value l (10 * acc + 1)
  | Decimal.D2 l => uint_value l (10 * acc + 2)
  | Decimal.D3 l => uint_value l (10 * acc + 3)
  | Decimal.D4 l => uint_value l (10 * acc + 4)
  | Decimal.D5 l => uint_value l (10 * acc + 5)
  | Decimal.D6 l => uint_value l (10 * acc + 6)
  | Decimal.D7 l => uint_value l (10 * acc + 7)
  | Decimal.D8 l => uint_value l (10 * acc + 8)
  | Decimal.D9 l => uint_value l (10 * acc + 9)
  end.

(** ** Sample data *)

Definition alice : client := mkClient 1 "Alice" "first client" "backlog" 1.
Definition bob : client := mkClient 2 "Bob" "second client" "complete" 4.
Definition board : store := mkStore [alice; bob] [].

Definition num (z : N) : json :=
  JNumber {| negative := false; coeff := z; point := Z.of_nat (String.length (digits_of z)) |}.


Example parseInt_12abc : parseInt_string "12abc" 10 = Int 12.
Proof. reflexivity. Qed.
Example parseInt_hex : parseInt_string "0x1A" 0 = Int 26.
Proof. reflexivity. Qed.
Example parseInt_hex10 : parseInt_string "0x1A" 10 = Int 0.
Proof. reflexivity. Qed.
Example parseInt_neg : parseInt_string "  -42.9" 10 = Int (-42).
Proof. reflexivity. Qed.
Example parseInt_abc : parseInt_string "abc" 10 = NaN.
Proof. reflexivity. Qed.
Example toString_small :
  Number_toString {| negative := false; coeff := 5; point := -6 |} = "5e-7".
Proof. reflexivity. Qed.
Example toString_frac :
  Number_toString {| negative := true; coeff := 15; point := 1 |} = "-1.5".
Proof. reflexivity. Qed.
Example toString_big :
  Number_toString {| negative := false; coeff := 1; point := 22 |} = "1e+21".
Proof. reflexivity. Qed.
Example toString_int :
  Number_toString {| negative := false; coeff := 12; point := 4 |} = "1200".
Proof. reflexivity. Qed.
Example toString_small2 :
  Number_toString {| negative := false; coeff := 123; point := -2 |} = "0.00123".
Proof. reflexivity. Qed.
Example toString_array :
  ToString (JArray [JNumber {| negative := false; coeff := 5; point := 1 |};
                    JNull; JString "a"]) = Some "5,,a".
Proof. reflexivity. Qed.

(** [parseInt] truncates: a priority of 1.5 is stored as 1, and 0.0000005,
    printed as 5e-7, as 5. *)
Example put_priority_fraction :
  rows (snd (put_client
    (mkPut "2" None
       (Some (JNumber {| negative := false; coeff := 15; point := 1 |})))
    board))
  = [alice; mkClient 2 "Bob" "second client" "complete" 1].
Proof. reflexivity. Qed.
Example put_priority_tiny :
  rows (snd (put_client
    (mkPut "1" None
       (Some (JNumber {| negative := false; coeff := 5; point := -6 |})))
    board))
  = [mkClient 1 "Alice" "first client" "backlog" 5; bob].
Proof. reflexivity. Qed.

Example put_in_progress :
  put_client (mkPut "1" (Some (JString "in-progress")) None) board
  = (Send 200 (Rows [mkClient 1 "Alice" "first client" "in-progress" 1; bob]),
     mkStore [mkClient 1 "Alice" "first client" "in-progress" 1; bob] []).
Proof. reflexivity. Qed.
Example put_priority_zero :
  put_client (mkPut "1" None (Some (num 0))) board
  = (Send 400 (Object [("message", "Invalid priority provided.");
                      ("long_message", "Priority can only be positive integer.")]),
     board).
Proof. reflexivity. Qed.
Example put_missing :
  fst (put_client (mkPut "999" (Some (JString "complete")) None) board)
  = Send 400 (Object [("message", "Invalid id provided.");
                      ("long_message", "Cannot find client with that id.")]).
Proof. reflexivity. Qed.
Example list_done :
  fst (get_clients (Some (JString "done")) board)
  = Send 400 (Object [("message", "Invalid status provided.");
                ("long_message",
                 "Status can only be one of the following: [backlog | in-progress | complete].")]).
Proof. reflexivity. Qed.


Example to_double_2_53_plus_1 :
  parseInt_string "9007199254740993" 10 = Int 9007199254740992.
Proof. vm_compute. reflexivity. Qed.
Example to_double_2_53_plus_3 :
  parseInt_string "-9007199254740995" 10 = Int (-9007199254740996).
Proof. vm_compute. reflexivity. Qed.
Example to_double_21_digits :
  parseInt_string "123456789012345678901" 10 = Int 123456789012345683968.
Proof. vm_compute. reflexivity. Qed.
Example to_double_overflow :
  to_double (2 ^ 1024 - 2 ^ 970) = Infinity false /\
  to_double (2 ^ 1024 - 2 ^ 970 - 1) = Int (2 ^ 1024 - 2 ^ 971).
Proof. split; vm_compute; reflexivity. Qed.

(** ** Doubles *)

Lemma to_double_small (z : Z) : Z.abs z <= 2 ^ 53 -> to_double z = Int z.
Proof.
  intros H. unfold to_double.
  replace (Z.abs z <=? 2 ^ 53) with true by (symmetry; apply Z.leb_le; exact H).
  reflexivity.
Qed.

Lemma round_magnitude_fixed (q e : Z) :
  2 ^ 52 <= q <= 2 ^ 53 -> 0 <= e ->
  round_magnitude (q * 2 ^ e) = q * 2 ^ e.
Proof.
  intros Hq He.
  assert (P : 0 < 2 ^ e) by (apply Z.pow_pos_nonneg; lia).
  assert (P52 : 0 < 2 ^ 52) by (apply Z.pow_pos_nonneg; lia).
  assert (E53 : 2 ^ 53 = 2 * 2 ^ 52) by (rewrite <- Z.pow_succ_r by lia; reflexivity).
  destruct (Z.eq_dec q (2 ^ 53)) as [->|Nq].
  - assert (L : Z.log2 (2 ^ 53 * 2 ^ e) = 53 + e).
    { rewrite <- Z.pow_add_r by lia. apply Z.log2_pow2. lia. }
    unfold round_magnitude. rewrite L.
    replace (53 + e - 52) with (Z.succ e) by lia.
    rewrite Z.pow_succ_r by lia.
    replace (2 ^ 53 * 2 ^ e) with (2 ^ 52 * (2 * 2 ^ e)) by lia.
    rewrite Z.div_mul by lia. rewrite Z.mod_mul by lia.
    replace (2 * 2 ^ e <? 2 * 0) with false by (symmetry; apply Z.ltb_ge; lia).
    replace (2 * 0 =? 2 * 2 ^ e) with false by (symmetry; apply Z.eqb_neq; lia).
    reflexivity.
  - assert (L : Z.log2 (q * 2 ^ e) = 52 + e).
    { apply Z.log2_unique; [lia|].
      replace (2 ^ Z.succ (52 + e)) with (2 ^ 53 * 2 ^ e)
        by (rewrite <- Z.pow_add_r by lia; f_equal; lia).
      rewrite Z.pow_add_r by lia. split.
      - apply Z.mul_le_mono_nonneg_r; lia.
      - apply Z.mul_lt_mono_pos_r; lia. }
    unfold round_magnitude. rewrite L.
    replace (52 + e - 52) with e by lia.
    rewrite Z.div_mul by lia. rewrite Z.mod_mul by lia.
    replace (2 ^ e <? 2 * 0) with false by (symmetry; apply Z.ltb_ge; lia).
    replace (2 * 0 =? 2 ^ e) with false by (symmetry; apply Z.eqb_neq; lia).
    reflexivity.
Qed.

Lemma round_magnitude_shape (a : Z) :
  2 ^ 53 < a ->
  exists q e, 2 ^ 52 <= q <= 2 ^ 53 /\ 0 <= e /\
              round_magnitude a = q * 2 ^ e.
Proof.
  intros H.
  assert (P53 : 0 < 2 ^ 53) by (apply Z.pow_pos_nonneg; lia).
  assert (Ha : 0 < a) by lia.
  destruct (Z.log2_spec a Ha) as [Lo Hi].
  set (L := Z.log2 a) in *.
  assert (HL : 53 <= L).
  { destruct (Z_lt_le_dec L 53) as [C|C]; [|exact C].
    assert (2 ^ Z.succ L <= 2 ^ 53) by (apply Z.pow_le_mono_r; lia). lia. }
  set (e := L - 52).
  assert (P : 0 < 2 ^ e) by (apply Z.pow_pos_nonneg; lia).
  assert (EL : 2 ^ L = 2 ^ 52 * 2 ^ e)
    by (rewrite <- Z.pow_add_r by lia; f_equal; lia).
  assert (EH : 2 ^ Z.succ L = 2 ^ 53 * 2 ^ e)
    by (rewrite <- Z.pow_add_r by lia; f_equal; lia).
  assert (Q1 : 2 ^ 52 <= a / 2 ^ e)
    by (apply Z.div_le_lower_bound; [exact P | lia]).
  assert (Q2 : a / 2 ^ e < 2 ^ 53)
    by (apply Z.div_lt_upper_bound; [exact P | lia]).
  unfold round_magnitude. fold L. fold e.
  destruct ((2 ^ e <? 2 * (a mod 2 ^ e))
            || ((2 * (a mod 2 ^ e) =? 2 ^ e) && Z.odd (a / 2 ^ e))).
  - exists (a / 2 ^ e + 1), e. split; [lia|]. split; [lia | reflexivity].
  - exists (a / 2 ^ e), e. split; [lia|]. split; [lia | reflexivity].
Qed.

Lemma to_double_not_NaN (z : Z) : to_double z <> NaN.
Proof.
  unfold to_double. destruct (Z.abs z <=? 2 ^ 53); [discriminate|].
  destruct (2 ^ 1024 <=? round_magnitude (Z.abs z)); discriminate.
Qed.

(** Rounding gives a double: rounding it again changes nothing. *)
Lemma to_double_is_double (z : Z) : is_double (to_double z).
Proof.
  unfold to_double at 1.
  destruct (Z.abs z <=? 2 ^ 53) eqn:S.
  - apply Z.leb_le in S. cbn [is_double]. apply to_double_small. exact S.
  - apply Z.leb_gt in S.
    destruct (round_magnitude_shape _ S) as [q [e [Hq [He R]]]].
    rewrite R.
    destruct (2 ^ 1024 <=? q * 2 ^ e) eqn:O; [exact I|].
    cbn [is_double].
    assert (P : 0 < 2 ^ e) by (apply Z.pow_pos_nonneg; lia).
    assert (P52 : 0 < 2 ^ 52) by (apply Z.pow_pos_nonneg; lia).
    assert (V : 0 < q * 2 ^ e) by nia.
    assert (A : Z.abs (Z.sgn z * (q * 2 ^ e)) = q * 2 ^ e).
    { destruct z; cbn [Z.sgn]; lia. }
    destruct (Z_le_gt_dec (q * 2 ^ e) (2 ^ 53)) as [C|C].
    + apply to_double_small. rewrite A. exact C.
    + unfold to_double. rewrite A.
      replace (q * 2 ^ e <=? 2 ^ 53) with false
        by (symmetry; apply Z.leb_gt; lia).
      rewrite (round_magnitude_fixed q e Hq He), O.
      f_equal. destruct z; cbn [Z.sgn]; lia.
Qed.

Lemma parseInt_string_is_double (raw : string) (R : Z) :
  is_double (parseInt_string raw R).
Proof.
  unfold parseInt_string.
  repeat match goal with
         | |- is_double (let '(_, _) := ?x in _) => destruct x
         | |- is_double (if ?x then _ else _) => destruct x
         | |- is_double (match ?x with _ => _ end) => destruct x
         end; try exact I; apply to_double_is_double.
Qed.

(** ** The store calls *)

Lemma next_outcome_rows (s : store) : rows (snd (next_outcome s)) = rows s.
Proof. unfold next_outcome. destruct (outcomes s); reflexivity. Qed.

Lemma next_outcome_fst (l : list client) (s : store) :
  fst (next_outcome {| rows := l; outcomes := outcomes s |})
  = fst (next_outcome s).
Proof. unfold next_outcome. cbn [outcomes]. destruct (outcomes s); reflexivity. Qed.

Lemma succeed_next (k : nat) (s : store) :
  succeed (S k) s = true ->
  fst (next_outcome s) = None /\ succeed k (snd (next_outcome s)) = true.
Proof.
  unfold succeed, next_outcome.
  destruct (outcomes s) as [|o os] eqn:E; simpl.
  - intros _. rewrite E. split; [reflexivity | now destruct k].
  - destruct o; simpl; [discriminate | auto].
Qed.

Lemma succeed_weaken (k : nat) (s : store) :
  succeed (S k) s = true -> succeed k s = true.
Proof.
  unfold succeed. generalize (outcomes s). induction k as [|k IH]; intros l.
  - reflexivity.
  - destruct l as [|o os]; [reflexivity|].
    change (firstn (S (S k)) (o :: os)) with (o :: firstn (S k) os).
    change (firstn (S k) (o :: os)) with (o :: firstn k os).
    simpl forallb. destruct o; simpl; [discriminate | apply IH].
Qed.

Lemma db_all_rows (s : store) : rows (snd (db_all s)) = rows s.
Proof.
  unfold db_all. pose proof (next_outcome_rows s) as H.
  destruct (next_outcome s) as [[e|] s']; exact H.
Qed.

Lemma db_get_by_id_rows (n : number) (s : store) :
  rows (snd (db_get_by_id n s)) = rows s.
Proof.
  unfold db_get_by_id. pose proof (next_outcome_rows s) as H.
  destruct (next_outcome s) as [[e|] s']; exact H.
Qed.

(** A row that SQL's [id = ?] picks for a double is one that JavaScript's
    [c.id === id] picks too: the identifier read from the row is that
    double. *)
Lemma id_matches_strict_eq (n : number) (c : client) :
  is_double n -> id_matches n c = true ->
  strict_eq (to_double (id c)) n = true.
Proof.
  destruct n as [|z|neg]; cbn [id_matches is_double]; try discriminate.
  intros D M. apply Z.eqb_eq in M. rewrite M, D. cbn. apply Z.eqb_refl.
Qed.

Lemma find_strict_eq (n : number) (l : list client) :
  is_double n -> existsb (id_matches n) l = true ->
  find (fun c => strict_eq (to_double (id c)) n) l <> None.
Proof.
  intros D. induction l as [|c l IH]; cbn [existsb find]; [discriminate|].
  destruct (id_matches n c) eqn:M.
  - rewrite (id_matches_strict_eq n c D M). discriminate.
  - cbn [orb]. intros K.
    destruct (strict_eq (to_double (id c)) n); [discriminate | exact (IH K)].
Qed.

Lemma find_existsb {A} (f : A -> bool) (l : list A) :
  existsb f l = true <-> find f l <> None.
Proof.
  induction l as [|a l IH]; simpl.
  - split; [discriminate | congruence].
  - destruct (f a); simpl; [split; [discriminate | reflexivity] | exact IH].
Qed.

Lemma existsb_NaN (l : list client) : existsb (id_matches NaN) l = false.
Proof. induction l as [|c l IH]; simpl; auto. Qed.

Lemma existsb_Infinity (neg : bool) (l : list client) :
  existsb (id_matches (Infinity neg)) l = false.
Proof. induction l as [|c l IH]; simpl; auto. Qed.

(** ** The identifier validator *)

Lemma validateId_rows (n : number) (s : store) :
  rows (snd (validateId n s)) = rows s.
Proof.
  unfold validateId. destruct (isNaN n); [reflexivity|].
  pose proof (db_get_by_id_rows n s) as H.
  destruct (db_get_by_id n s) as [[e|[c|]] s']; exact H.
Qed.

Lemma validateId_NaN (s : store) :
  validateId NaN s =
  (mkValidation false
     (Some [("message", "Invalid id provided.");
            ("long_message", "Id can only be integer.")]), s).
Proof. reflexivity. Qed.

(** A valid identifier is an integer that a row carries. *)
Lemma validateId_valid (n : number) (s : store) :
  valid (fst (validateId n s)) = true ->
  existsb (id_matches n) (rows s) = true /\
  validateId n s = (mkValidation true None, snd (next_outcome s)).
Proof.
  unfold validateId, db_get_by_id. destruct (isNaN n); [discriminate|].
  destruct (next_outcome s) as [[e|] s']; simpl; [discriminate|].
  destruct (find (id_matches n) (rows s)) eqn:F; simpl; [|discriminate].
  intros _. split; [|reflexivity].
  apply find_existsb. congruence.
Qed.

Lemma validateId_existing (n : number) (s : store) :
  existsb (id_matches n) (rows s) = true ->
  fst (next_outcome s) = None ->
  validateId n s = (mkValidation true None, snd (next_outcome s)).
Proof.
  intros K O. unfold validateId, db_get_by_id.
  destruct n as [|z|neg];
    [ rewrite existsb_NaN in K; discriminate | |
      rewrite existsb_Infinity in K; discriminate ].
  simpl isNaN. cbv iota.
  destruct (next_outcome s) as [o s']; simpl in *; subst o.
  apply find_existsb in K.
  destruct (find (id_matches (Int z)) (rows s)); [reflexivity | congruence].
Qed.

Lemma validateId_missing (n : number) (s : store) :
  existsb (id_matches n) (rows s) = false ->
  fst (next_outcome s) = None ->
  send_message 400 (messageObj (fst (validateId n s))) =
    (if isNaN n then InvalidIdentifier_not_integer
     else InvalidIdentifier_not_found)
  /\ valid (fst (validateId n s)) = false.
Proof.
  intros K O. unfold validateId, db_get_by_id.
  destruct (isNaN n); [split; reflexivity|].
  destruct (next_outcome s) as [o s']; simpl in *; subst o.
  destruct (find (id_matches n) (rows s)) eqn:F; simpl.
  - assert (existsb (id_matches n) (rows s) = true)
      by (apply find_existsb; congruence). congruence.
  - split; reflexivity.
Qed.

(** ** The fields of the body (lines 129-154) *)

Lemma collect_updates_invalid_status (bs bp : value) :
  truthy bs = true -> includes statuses bs = false ->
  collect_updates bs bp = inl InvalidStatus.
Proof. intros T I. unfold collect_updates. rewrite T, I. reflexivity. Qed.

Lemma collect_updates_falsy (bs bp : value) :
  truthy bs = false -> collect_updates bs bp = collect_updates None bp.
Proof. intros T. unfold collect_updates. rewrite T. reflexivity. Qed.


(** What [includes] says of a value: it is one of the three strings. *)
Lemma includes_statuses (v : value) :
  includes statuses v = true ->
  exists st, v = Some (JString st) /\ In st statuses.
Proof.
  destruct v as [[| | | |st| |]|]; cbn [includes]; try discriminate.
  intros H. exists st. split; [reflexivity|].
  apply existsb_exists in H. destruct H as [x [Hx E]].
  apply String.eqb_eq in E. subst x. exact Hx.
Qed.

Lemma validatePriority_Int (z : Z) :
  validatePriority (Int z) =
  if z <? 1 then
    mkValidation false
      (Some [("message", "Invalid priority provided.");
             ("long_message", "Priority can only be positive integer.")])
  else mkValidation true None.
Proof. reflexivity. Qed.

(** [validatePriority] passes the numbers that are at least 1. *)
Lemma validatePriority_cases (w : number) :
  validatePriority w =
  if at_least_one w then mkValidation true None
  else
    mkValidation false
      (Some [("message", "Invalid priority provided.");
             ("long_message", "Priority can only be positive integer.")]).
Proof.
  destruct w as [|z|[|]]; try reflexivity.
  rewrite validatePriority_Int. cbn [at_least_one].
  destruct (z <? 1) eqn:L, (1 <=? z) eqn:G; try reflexivity.
  - apply Z.ltb_lt in L. apply Z.leb_le in G. lia.
  - apply Z.ltb_ge in L. apply Z.leb_gt in G. lia.
Qed.

(** When the fields pass, the statement built from them is one SQLite
    accepts, and it makes of a row what [changed] says. *)
Lemma collect_updates_prepare (raw : string) (bs bp : value)
  (u : list string) (p : list param) (n : number) :
  collect_updates bs bp = inr (u, p) ->
  exists f,
    prepare_update u (p ++ [PNumber n]) = Some (f, n) /\
    (forall c, f c = changed (mkPut raw bs bp) c) /\
    (truthy bs = true -> includes statuses bs = true) /\
    (bp <> None ->
     exists w, parseInt bp 0 = Some w /\ at_least_one w = true) /\
    (truthy bs = true \/ bp <> None).
Proof.
  unfold collect_updates, changed, new_status, new_priority. simpl.
  destruct (truthy bs) eqn:T.
  - destruct (includes statuses bs) eqn:I; simpl; [|intros E; discriminate E].
    destruct (includes_statuses _ I) as [st [-> _]].
    destruct bp as [j|].
    + destruct (parseInt (Some j) 0) as [w|] eqn:P; simpl;
        [|intros E; discriminate E].
      rewrite validatePriority_cases.
      destruct (at_least_one w) eqn:A; simpl; [|intros E; discriminate E].
      intros E; injection E as <- <-.
      destruct w as [|z|neg]; [discriminate A|..]; eexists; simpl;
        (split; [reflexivity|]; split; [reflexivity|];
         split; [reflexivity|]; split; [|left; reflexivity]);
        intros _; eexists; (split; [reflexivity | exact A]).
    + simpl. intros E; injection E as <- <-. eexists. simpl.
      split; [reflexivity|]. split; [reflexivity|].
      split; [reflexivity|]. split; [congruence | left; reflexivity].
  - destruct bp as [j|].
    + destruct (parseInt (Some j) 0) as [w|] eqn:P; simpl;
        [|intros E; discriminate E].
      rewrite validatePriority_cases.
      destruct (at_least_one w) eqn:A; simpl; [|intros E; discriminate E].
      intros E; injection E as <- <-.
      destruct w as [|z|neg]; [discriminate A|..]; eexists; simpl;
        (split; [reflexivity|]; split; [reflexivity|];
         split; [discriminate|]; split; [|right; discriminate]);
        intros _; eexists; (split; [reflexivity | exact A]).
    + simpl. intros E; discriminate E.
Qed.

(** A request stopped by its fields is answered with a 400, or throws. *)
Lemma collect_updates_inl (bs bp : value) (r : response) :
  collect_updates bs bp = inl r ->
  r = Throws \/ exists b, r = Send 400 b.
Proof.
  unfold collect_updates.
  destruct (truthy bs); [destruct (includes statuses bs)|]; cbn [negb];
    try (intros E; injection E as <-; right; eexists; reflexivity);
    (destruct bp as [j|];
     [destruct (parseInt (Some j) 0) as [w|];
      [ rewrite validatePriority_cases; destruct (at_least_one w) | ] | ]);
    cbn; intros E; try discriminate E; injection E as <-; eauto.
Qed.

(** ** The update callback (lines 121-167) *)

Lemma put_update_rejects (n : number) (req : put_request) (s : store)
  (r : response) :
  is_double n ->
  fst (next_outcome s) = None ->
  existsb (id_matches n) (rows s) = true ->
  collect_updates (body_status req) (body_priority req) = inl r ->
  put_update n req s = (r, snd (next_outcome s)).
Proof.
  intros D O K C. unfold put_update, db_all.
  destruct (next_outcome s) as [o s']; cbn [fst snd] in *; subst o.
  pose proof (find_strict_eq n _ D K) as F.
  destruct (find _ (rows s)); [|congruence].
  rewrite C. reflexivity.
Qed.

(** The table after the callback: as it was, or updated; and updated it is on
    a 200, whose body is then the table. *)
Lemma put_update_rows (n : number) (req : put_request) (s : store) :
  let '(r, s') := put_update n req s in
  match r with
  | Send 200 b =>
      b = Rows (rows s') /\ rows s' = updated n req (rows s) /\
      exists u p,
        collect_updates (body_status req) (body_priority req) = inr (u, p)
  | _ => rows s' = rows s \/ rows s' = updated n req (rows s)
  end.
Proof.
  unfold put_update, db_all.
  pose proof (next_outcome_rows s) as R2.
  destruct (next_outcome s) as [[e|] s2]; cbn [fst snd] in *;
    [left; exact R2|].
  destruct (find _ (rows s)) as [c|] eqn:F; [|left; exact R2].
  destruct (collect_updates (body_status req) (body_priority req))
    as [r|[u p]] eqn:C.
  - destruct (collect_updates_inl _ _ _ C) as [->|[b ->]]; left; exact R2.
  - destruct req as [raw bs bp]; simpl in C.
    destruct (collect_updates_prepare raw bs bp u p n C) as [f [P [Hf _]]].
    unfold db_run_update.
    pose proof (next_outcome_rows s2) as R3.
    destruct (next_outcome s2) as [[e|] s3]; simpl in *;
      [left; congruence|].
    rewrite P.
    match goal with
    | |- context [next_outcome ?t] =>
        pose proof (next_outcome_rows t) as R4;
        destruct (next_outcome t) as [[e|] s4]; simpl in *
    end.
    + right. rewrite R4, <- R2. unfold updated. apply map_ext.
      intros c0. rewrite Hf. reflexivity.
    + split; [rewrite R4; reflexivity|]. split.
      * rewrite R4, <- R2. unfold updated. apply map_ext.
        intros c0. rewrite Hf. reflexivity.
      * exists u, p. reflexivity.
Qed.

(** ** The update handler *)

(** On an existing identifier and with the two reads answered, a request
    stopped by its fields gets that response, and the table is as before. *)
Lemma put_client_rejects (req : put_request) (s : store) (r : response) :
  existing (params_id req) s = true ->
  succeed 2 s = true ->
  collect_updates (body_status req) (body_priority req) = inl r ->
  put_client req s = (r, snd (next_outcome (snd (next_outcome s)))).
Proof.
  intros K S C. unfold put_client, put_client_among, existing in *.
  destruct (succeed_next _ _ S) as [O1 S1].
  destruct (succeed_next _ _ S1) as [O2 _].
  rewrite (validateId_existing _ _ K O1). cbn [valid negb].
  apply put_update_rejects;
    [apply parseInt_string_is_double | exact O2 | | exact C].
  rewrite next_outcome_rows. exact K.
Qed.

Lemma put_client_rejects_rows (req : put_request) (s : store) (r : response) :
  existing (params_id req) s = true ->
  succeed 2 s = true ->
  collect_updates (body_status req) (body_priority req) = inl r ->
  fst (put_client req s) = r /\ rows (snd (put_client req s)) = rows s.
Proof.
  intros K S C. rewrite (put_client_rejects req s r K S C). cbn [fst snd].
  split; [reflexivity|]. now rewrite !next_outcome_rows.
Qed.

(** What a 200 from the handler means. *)
Lemma put_client_200 (req : put_request) (s : store) (b : body) (s' : store) :
  put_client req s = (Send 200 b, s') ->
  let n := parseInt_string (params_id req) 10 in
  b = Rows (rows s') /\ rows s' = updated n req (rows s) /\
  existsb (id_matches n) (rows s) = true /\
  validateId n s = (mkValidation true None, snd (next_outcome s)) /\
  exists u p,
    collect_updates (body_status req) (body_priority req) = inr (u, p).
Proof.
  intros E n. unfold put_client, put_client_among in E. fold n in E.
  destruct (validateId n s) as [v s1] eqn:V.
  destruct (valid v) eqn:Hv; cbn [negb] in E.
  - assert (Hv' : valid (fst (validateId n s)) = true) by now rewrite V.
    destruct (validateId_valid _ _ Hv') as [K V'].
    pose proof (validateId_rows n s) as R1. rewrite V in R1. cbn [snd] in R1.
    pose proof (put_update_rows n req s1) as H. rewrite E in H.
    cbn in H. destruct H as [Hb [Hr Hc]].
    rewrite R1 in Hr. rewrite <- V, V'. auto.
  - destruct (messageObj v); cbn in E; inversion E.
Qed.

Lemma put_update_stopped (n : number) (req : put_request) (s : store)
  (r : response) :
  collect_updates (body_status req) (body_priority req) = inl r ->
  rows (snd (put_update n req s)) = rows s.
Proof.
  intros C. unfold put_update, db_all.
  pose proof (next_outcome_rows s) as R.
  destruct (next_outcome s) as [[e|] s2]; cbn [snd] in *; [exact R|].
  destruct (find _ (rows s)); [rewrite C|]; exact R.
Qed.

(** A request whose fields do not pass is not written and not answered with
    a 200, whatever the identifier and whatever the store answers. *)
Lemma put_client_stopped (req : put_request) (s : store) (r : response) :
  collect_updates (body_status req) (body_priority req) = inl r ->
  rows (snd (put_client req s)) = rows s /\
  forall b, fst (put_client req s) <> Send 200 b.
Proof.
  intros C. split.
  - unfold put_client, put_client_among.
    pose proof (validateId_rows (parseInt_string (params_id req) 10) s) as R.
    destruct (validateId (parseInt_string (params_id req) 10) s) as [v s1].
    cbn [snd] in R. destruct (valid v); cbn [negb snd]; [|exact R].
    rewrite (put_update_stopped _ _ _ _ C). exact R.
  - intros b E.
    destruct (put_client req s) as [r' s'] eqn:P. cbn [fst] in E. subst r'.
    destruct (put_client_200 req s b s' P) as [_ [_ [_ [_ [u [p C']]]]]].
    congruence.
Qed.

(** ** Reading an identifier *)

Lemma read_digits_started (R : Z) (s : string) (a : Z) :
  read_digits R s (Some a) <> None.
Proof.
  revert a. induction s as [|c r IH]; intros a; simpl; [discriminate|].
  destruct (digit_value c) as [d|]; [|discriminate].
  destruct (d <? R); [apply IH | discriminate].
Qed.

Lemma digit_value_decimal (c : ascii) :
  is_decimal_digit c = true <->
  exists d, digit_value c = Some d /\ (d <? 10) = true.
Proof.
  unfold is_decimal_digit, digit_value.
  set (n := nat_of_ascii c).
  assert (B : (n < 256)%nat) by apply nat_ascii_bounded.
  destruct (48 <=? n)%nat eqn:L1, (n <=? 57)%nat eqn:L2;
    [apply Nat.leb_le in L1, L2 | apply Nat.leb_le in L1; apply Nat.leb_gt in L2
     | apply Nat.leb_gt in L1 | apply Nat.leb_gt in L1, L2 ]; simpl.
  - split; [intros _|reflexivity].
    replace ((48 <=? Z.of_nat n) && (Z.of_nat n <=? 57)) with true
      by (symmetry; apply andb_true_intro; split; apply Z.leb_le; lia).
    eexists; split; [reflexivity | apply Z.ltb_lt; lia].
  - split; [discriminate|]. intros [d [H D]]. apply Z.ltb_lt in D.
    replace ((48 <=? Z.of_nat n) && (Z.of_nat n <=? 57)) with false in H
      by (symmetry; apply andb_false_iff; right; apply Z.leb_gt; lia).
    destruct ((97 <=? Z.of_nat n) && (Z.of_nat n <=? 122)) eqn:A;
      [injection H as <-; apply andb_prop in A; destruct A as [A _];
       apply Z.leb_le in A; lia|].
    destruct ((65 <=? Z.of_nat n) && (Z.of_nat n <=? 90)) eqn:A';
      [injection H as <-; apply andb_prop in A'; destruct A' as [A' _];
       apply Z.leb_le in A'; lia | discriminate].
  - split; [discriminate|]. intros [d [H D]].
    replace ((48 <=? Z.of_nat n) && (Z.of_nat n <=? 57)) with false in H
      by (symmetry; apply andb_false_iff; left; apply Z.leb_gt; lia).
    replace ((97 <=? Z.of_nat n) && (Z.of_nat n <=? 122)) with false in H
      by (symmetry; apply andb_false_iff; left; apply Z.leb_gt; lia).
    replace ((65 <=? Z.of_nat n) && (Z.of_nat n <=? 90)) with false in H
      by (symmetry; apply andb_false_iff; left; apply Z.leb_gt; lia).
    discriminate.
  - lia.
Qed.

Lemma read_digits_leading (s : string) :
  read_digits 10 s None = None <->
  match s with String c _ => is_decimal_digit c | EmptyString => false end
  = false.
Proof.
  destruct s as [|c r]; simpl; [split; reflexivity|].
  pose proof (digit_value_decimal c) as D.
  destruct (is_decimal_digit c).
  - destruct (proj1 D eq_refl) as [d [-> L]]. rewrite L.
    split; [|discriminate]. intros H. now apply read_digits_started in H.
  - split; [reflexivity|]. intros _.
    destruct (digit_value c) as [d|] eqn:V; [|reflexivity].
    destruct (d <? 10) eqn:L; [|reflexivity].
    assert (false = true) by (apply D; eauto). discriminate.
Qed.

(** [parseInt] at radix 10: no prefix is stripped. *)
Lemma parseInt_string_10 (raw : string) :
  parseInt_string raw 10 =
  match read_digits 10 (unsigned (trim_start raw)) None with
  | None => NaN
  | Some m =>
      to_double
        (match trim_start raw with String "-" _ => -1 | _ => 1 end * m)
  end.
Proof.
  unfold parseInt_string, unsigned.
  destruct (trim_start raw) as [|c r]; [reflexivity|].
  destruct c as [[] [] [] [] [] [] [] []]; reflexivity.
Qed.

(** [parseInt(raw, 10)] is [NaN] exactly when no decimal digit leads. *)
Lemma parseInt_NaN_leading (raw : string) :
  parseInt_string raw 10 = NaN <-> leading_integer raw = false.
Proof.
  rewrite parseInt_string_10. unfold leading_integer.
  rewrite <- read_digits_leading.
  destruct (read_digits 10 (unsigned (trim_start raw)) None) as [m|];
    [|split; reflexivity].
  split; [intros H; now apply to_double_not_NaN in H | discriminate].
Qed.

(** ** Identifiers that are not integers *)

(** C3, at the identifier ["1abc"]: it is not an integer, yet [parseInt]
    reads [1] in it and [Number.isNaN] lets it pass; get-by-identifier
    answers 200 with client 1 instead of InvalidIdentifier, and the update
    writes to client 1. *)
Theorem C3_input_1abc_is_accepted :
  integer_input "1abc" = false /\
  get_client "1abc" board = (Send 200 (Row alice), board) /\
  put_client (mkPut "1abc" (Some (JString "complete")) None) board =
    (Send 200 (Rows [mkClient 1 "Alice" "first client" "complete" 1; bob]),
     mkStore [mkClient 1 "Alice" "first client" "complete" 1; bob] []) /\
  fst (put_client (mkPut "1abc" (Some (JString "complete")) None) board)
    <> InvalidIdentifier_not_integer /\
  rows (snd (put_client (mkPut "1abc" (Some (JString "complete")) None) board))
    <> rows board.
Proof.
  split; [reflexivity|]. split; [reflexivity|]. split; [reflexivity|].
  split; vm_compute; discriminate.
Qed.

(** The inputs that the handlers do answer with "Id can only be integer.":
    those in which no decimal digit leads after white space and an optional
    sign.  No store call is made for them. *)
Lemma no_leading_integer_is_rejected (raw : string) (s : store) :
  leading_integer raw = false ->
  (forall others, get_client_among others raw s =
                  (InvalidIdentifier_not_integer, s)) /\
  forall others b_status b_priority,
    put_client_among others (mkPut raw b_status b_priority) s =
    (InvalidIdentifier_not_integer, s).
Proof.
  intros L. apply parseInt_NaN_leading in L.
  split.
  - intros others. unfold get_client_among. rewrite L. reflexivity.
  - intros others bs bp. unfold put_client_among. cbn [params_id].
    rewrite L. reflexivity.
Qed.

(** ** Requests without fields *)

(** C4: an update that supplies neither status nor priority changes no
    record and is not accepted; on an existing identifier (and with the two
    reads of the handler answered) its answer is NoFieldsToUpdate. *)
Theorem C4_no_fields_to_update (req : put_request) (s : store) :
  body_status req = None ->
  body_priority req = None ->
  rows (snd (put_client req s)) = rows s /\
  (forall b, fst (put_client req s) <> Send 200 b) /\
  (existing (params_id req) s = true -> succeed 2 s = true ->
   fst (put_client req s) = NoFieldsToUpdate).
Proof.
  intros Hs Hp.
  assert (C : collect_updates (body_status req) (body_priority req)
              = inl NoFieldsToUpdate) by (rewrite Hs, Hp; reflexivity).
  destruct (put_client_stopped req s _ C) as [R N].
  split; [exact R|]. split; [exact N|].
  intros K S. apply (put_client_rejects_rows req s _ K S C).
Qed.

Lemma C4_no_fields_to_update_witness :
  let req := mkPut "2" None None in
  (body_status req = None /\ body_priority req = None /\
   existing (params_id req) board = true /\ succeed 2 board = true) /\
  rows (snd (put_client req board)) = rows board /\
  fst (put_client req board) = NoFieldsToUpdate.
Proof.
  split; [repeat split|].
  destruct (C4_no_fields_to_update (mkPut "2" None None) board
              eq_refl eq_refl) as [R [_ E]].
  split; [exact R | exact (E eq_refl eq_refl)].
Defined.

(** ** Invalid status *)

(** C1, as stated, fails: the empty string is a supplied status outside the
    set, yet the request is accepted and the priority sent with it is
    written. *)
Lemma C1_empty_status_is_not_rejected :
  let req := mkPut "1" (Some (JString "")) (Some (num 3)) in
  existing (params_id req) board = true /\
  includes statuses (body_status req) = false /\
  put_client req board =
    (Send 200 (Rows [mkClient 1 "Alice" "first client" "backlog" 3; bob]),
     mkStore [mkClient 1 "Alice" "first client" "backlog" 3; bob] []) /\
  fst (put_client req board) <> InvalidStatus /\
  rows (snd (put_client req board)) <> rows board.
Proof.
  split; [reflexivity|]. split; [reflexivity|]. split; [reflexivity|].
  split; vm_compute; discriminate.
Qed.

(** C1, amended: an update whose status is truthy (not the empty string,
    [0], [false] or [null]) and outside the set changes no field, whatever
    priority comes with it, and is not accepted; on an existing identifier
    (and with the two reads of the handler answered) its answer is
    InvalidStatus. *)
Theorem C1_invalid_status_is_rejected (req : put_request) (s : store) :
  truthy (body_status req) = true ->
  includes statuses (body_status req) = false ->
  rows (snd (put_client req s)) = rows s /\
  (forall b, fst (put_client req s) <> Send 200 b) /\
  (existing (params_id req) s = true -> succeed 2 s = true ->
   fst (put_client req s) = InvalidStatus).
Proof.
  intros T I.
  pose proof (collect_updates_invalid_status _ (body_priority req) T I) as C.
  destruct (put_client_stopped req s _ C) as [R N].
  split; [exact R|]. split; [exact N|].
  intros K S. apply (put_client_rejects_rows req s _ K S C).
Qed.

Lemma C1_invalid_status_is_rejected_witness :
  let req := mkPut "1" (Some (JString "done")) (Some (num 3)) in
  (truthy (body_status req) = true /\
   includes statuses (body_status req) = false /\
   existing (params_id req) board = true /\ succeed 2 board = true) /\
  rows (snd (put_client req board)) = rows board /\
  fst (put_client req board) = InvalidStatus.
Proof.
  split; [repeat split|].
  destruct (C1_invalid_status_is_rejected
              (mkPut "1" (Some (JString "done")) (Some (num 3))) board
              eq_refl eq_refl) as [R [_ E]].
  split; [exact R | exact (E eq_refl eq_refl)].
Defined.

(** ** Invalid priority *)




(** What the amended claim leaves out: 0.0000005 is below 1 and 1.5 is no
    integer, yet [parseInt] reads 5 and 1 in them, the check [priority < 1]
    passes and the update is accepted, against the handler's own "Priority
    can only be positive integer.". *)
Example priority_below_one_or_fractional_is_accepted :
  let tiny := JNumber {| negative := false; coeff := 5; point := -6 |} in
  let frac := JNumber {| negative := false; coeff := 15; point := 1 |} in
  positive_integer tiny = false /\ positive_integer frac = false /\
  put_client (mkPut "1" None (Some tiny)) board =
    (Send 200 (Rows [mkClient 1 "Alice" "first client" "backlog" 5; bob]),
     mkStore [mkClient 1 "Alice" "first client" "backlog" 5; bob] []) /\
  put_client (mkPut "2" None (Some frac)) board =
    (Send 200 (Rows [alice; mkClient 2 "Bob" "second client" "complete" 1]),
     mkStore [alice; mkClient 2 "Bob" "second client" "complete" 1] []).
Proof. repeat split. Qed.

(** ** Accepted updates *)

(** With its four store calls answered, an update of an existing record
    whose fields pass is written, and the table comes back. *)
Lemma put_client_accepts (req : put_request) (s : store)
  (u : list string) (p : list param) :
  existing (params_id req) s = true ->
  succeed 4 s = true ->
  collect_updates (body_status req) (body_priority req) = inr (u, p) ->
  let n := parseInt_string (params_id req) 10 in
  fst (put_client req s) = Send 200 (Rows (updated n req (rows s))) /\
  rows (snd (put_client req s)) = updated n req (rows s).
Proof.
  intros K S C n. unfold put_client, put_client_among, existing in *. fold n in K |- *.
  destruct (succeed_next _ _ S) as [O1 S1].
  destruct (succeed_next _ _ S1) as [O2 S2].
  destruct (succeed_next _ _ S2) as [O3 S3].
  destruct (succeed_next _ _ S3) as [O4 _].
  rewrite (validateId_existing _ _ K O1). cbn [valid negb].
  set (s1 := snd (next_outcome s)) in *.
  assert (R1 : rows s1 = rows s) by apply next_outcome_rows.
  unfold put_update, db_all.
  destruct (next_outcome s1) as [o2 s2] eqn:N2. cbn [fst snd] in *. subst o2.
  assert (R2 : rows s2 = rows s1)
    by (pose proof (next_outcome_rows s1) as H; now rewrite N2 in H).
  assert (F : find (fun c => strict_eq (to_double (id c)) n) (rows s1)
              <> None)
    by (apply find_strict_eq;
        [apply parseInt_string_is_double | now rewrite R1]).
  destruct (find _ (rows s1)); [|congruence].
  rewrite C.
  destruct req as [raw bs bp]; cbn [body_status body_priority] in C.
  destruct (collect_updates_prepare raw bs bp u p n C) as [f [P [Hf _]]].
  unfold db_run_update.
  destruct (next_outcome s2) as [o3 s3] eqn:N3. cbn [fst snd] in *. subst o3.
  rewrite P.
  match goal with
  | |- context [next_outcome ?t] =>
      assert (O : fst (next_outcome t) = None)
        by (rewrite next_outcome_fst; exact O4);
      pose proof (next_outcome_rows t) as R4;
      destruct (next_outcome t) as [o4 s4]
  end.
  cbn [fst snd rows] in *. subst o4. cbn [fst snd].
  assert (E : map (fun c => if id_matches n c then f c else c) (rows s2)
              = updated n (mkPut raw bs bp) (rows s)).
  { rewrite R2, R1. unfold updated. apply map_ext. intros c0.
    now rewrite Hf. }
  rewrite <- E. split; [reflexivity | exact R4].
Qed.

Lemma changed_twice (req : put_request) (c : client) :
  changed req (changed req c) = changed req c.
Proof.
  unfold changed, new_status, new_priority. cbn [id name description status priority].
  f_equal.
  - destruct (truthy (body_status req)); [|reflexivity].
    destruct (body_status req) as [[| | | | | |]|]; reflexivity.
  - destruct (body_priority req); [|reflexivity].
    destruct (parseInt (Some j) 0) as [w|]; reflexivity.
Qed.

Lemma updated_twice (n : number) (req : put_request) (l : list client) :
  updated n req (updated n req l) = updated n req l.
Proof.
  unfold updated. rewrite map_map. apply map_ext. intros c.
  destruct (id_matches n c) eqn:M.
  - replace (id_matches n (changed req c)) with true
      by (destruct n; first [discriminate | exact (eq_sym M)]).
    apply changed_twice.
  - rewrite M. reflexivity.
Qed.

Lemma updated_existing (n : number) (req : put_request) (l : list client) :
  existsb (id_matches n) (updated n req l) = existsb (id_matches n) l.
Proof.
  unfold updated. induction l as [|c l IH]; [reflexivity|].
  cbn [map existsb]. rewrite IH. f_equal.
  destruct (id_matches n c) eqn:M; [|exact M].
  destruct n; first [discriminate | exact M].
Qed.

(** Whatever the store answers, the handler leaves the table as it was or
    updated. *)
Lemma put_client_rows (req : put_request) (s : store) :
  let n := parseInt_string (params_id req) 10 in
  rows (snd (put_client req s)) = rows s \/
  rows (snd (put_client req s)) = updated n req (rows s).
Proof.
  intros n. unfold put_client, put_client_among. fold n.
  pose proof (validateId_rows n s) as R1.
  destruct (validateId n s) as [v s1]. cbn [snd] in R1.
  destruct (valid v); cbn [negb snd]; [|left; exact R1].
  pose proof (put_update_rows n req s1) as H.
  destruct (put_update n req s1) as [r s2]. cbn [snd]. rewrite <- R1.
  destruct r as [code b|]; [|exact H].
  destruct code as [|q|q]; try exact H.
  repeat (match type of H with
          | match ?x with _ => _ end => destruct x
          end; try exact H).
  right. apply H.
Qed.

(** C5: the body of a successful update is the whole table as the write
    left it. *)
Theorem C5_success_returns_whole_table (req : put_request) (s s' : store)
  (b : body) :
  put_client req s = (Send 200 b, s') ->
  b = Rows (rows s') /\
  rows s' = updated (parseInt_string (params_id req) 10) req (rows s).
Proof.
  intros E. destruct (put_client_200 req s b s' E) as [Hb [Hr _]]. auto.
Qed.

Lemma C5_success_returns_whole_table_witness :
  let req := mkPut "1" (Some (JString "in-progress")) None in
  let l := [mkClient 1 "Alice" "first client" "in-progress" 1; bob] in
  put_client req board = (Send 200 (Rows l), mkStore l []) /\
  Rows l = Rows (rows (mkStore l [])) /\
  rows (mkStore l []) =
    updated (parseInt_string (params_id req) 10) req (rows board).
Proof.
  split; [reflexivity|].
  apply (C5_success_returns_whole_table
           (mkPut "1" (Some (JString "in-progress")) None) board).
  reflexivity.
Defined.

(** C8: a valid partial update applied a second time leaves the table as
    the first application left it; and with the store answering, the second
    application succeeds with the same body. *)
Theorem C8_update_is_idempotent (req : put_request) (s s1 : store) (b : body) :
  put_client req s = (Send 200 b, s1) ->
  rows (snd (put_client req s1)) = rows s1 /\
  (succeed 4 s1 = true -> fst (put_client req s1) = Send 200 b).
Proof.
  intros E. destruct (put_client_200 req s b s1 E) as [Hb [Hr [K [_ [u [p C]]]]]].
  split.
  - destruct (put_client_rows req s1) as [H|H]; [exact H|].
    rewrite H, Hr. apply updated_twice.
  - intros S.
    assert (K1 : existing (params_id req) s1 = true)
      by (unfold existing; rewrite Hr, updated_existing; exact K).
    destruct (put_client_accepts req s1 u p K1 S C) as [H _].
    rewrite H, Hb, Hr, updated_twice. reflexivity.
Qed.

Lemma C8_update_is_idempotent_witness :
  let req := mkPut "2" (Some (JString "backlog")) (Some (JString "9")) in
  let l := [alice; mkClient 2 "Bob" "second client" "backlog" 9] in
  put_client req board = (Send 200 (Rows l), mkStore l []) /\
  rows (snd (put_client req (mkStore l []))) = l /\
  fst (put_client req (mkStore l [])) = Send 200 (Rows l).
Proof.
  split; [reflexivity|].
  destruct (C8_update_is_idempotent
              (mkPut "2" (Some (JString "backlog")) (Some (JString "9")))
              board
              (mkStore [alice; mkClient 2 "Bob" "second client" "backlog" 9] [])
              (Rows [alice; mkClient 2 "Bob" "second client" "backlog" 9])
              eq_refl) as [R A].
  split; [exact R | exact (A eq_refl)].
Defined.

(** ** Decimal digits read back *)

Lemma read_digits_step (c : ascii) (r : string) (acc : option Z) (k : Z) :
  digit_value c = Some k -> (k <? 10) = true ->
  read_digits 10 (String c r) acc =
  read_digits 10 r
    (Some (10 * match acc with Some a => a | None => 0 end + k)).
Proof. intros D L. cbn [read_digits]. rewrite D, L. reflexivity. Qed.

Ltac read_digit :=
  first [ rewrite (read_digits_step "0" _ _ 0 eq_refl eq_refl)
        | rewrite (read_digits_step "1" _ _ 1 eq_refl eq_refl)
        | rewrite (read_digits_step "2" _ _ 2 eq_refl eq_refl)
        | rewrite (read_digits_step "3" _ _ 3 eq_refl eq_refl)
        | rewrite (read_digits_step "4" _ _ 4 eq_refl eq_refl)
        | rewrite (read_digits_step "5" _ _ 5 eq_refl eq_refl)
        | rewrite (read_digits_step "6" _ _ 6 eq_refl eq_refl)
        | rewrite (read_digits_step "7" _ _ 7 eq_refl eq_refl)
        | rewrite (read_digits_step "8" _ _ 8 eq_refl eq_refl)
        | rewrite (read_digits_step "9" _ _ 9 eq_refl eq_refl) ].

Lemma read_digits_uint (d : Decimal.uint) (a : Z) :
  read_digits 10 (NilEmpty.string_of_uint d) (Some a) = Some (uint_value d a).
Proof.
  revert a. induction d as [|d IH|d IH|d IH|d IH|d IH|d IH|d IH|d IH|d IH|d IH];
    intros a; [reflexivity|..];
    cbn [NilEmpty.string_of_uint uint_value];
    read_digit; rewrite IH; f_equal; f_equal; lia.
Qed.

Lemma uint_value_of_uint_acc (d : Decimal.uint) (acc : positive) :
  Z.pos (Pos.of_uint_acc d acc) = uint_value d (Z.pos acc).
Proof.
  revert acc.
  induction d as [|d IH|d IH|d IH|d IH|d IH|d IH|d IH|d IH|d IH|d IH];
    intros acc; [reflexivity|..];
    cbn [Pos.of_uint_acc uint_value]; rewrite IH; f_equal; lia.
Qed.

Lemma uint_value_of_uint (d : Decimal.uint) :
  Z.of_N (N.of_uint d) = uint_value d 0.
Proof.
  unfold N.of_uint.
  induction d as [|d IH|d IH|d IH|d IH|d IH|d IH|d IH|d IH|d IH|d IH];
    [reflexivity | exact IH |..];
    cbn [Pos.of_uint uint_value Z.of_N]; rewrite uint_value_of_uint_acc;
    reflexivity.
Qed.

(** The digits that print [n] are read back as [n]. *)
Lemma read_digits_of (n : N) :
  read_digits 10 (digits_of n) None = Some (Z.of_N n).
Proof.
  unfold digits_of.
  rewrite <- (DecimalN.Unsigned.of_to n) at 2. rewrite uint_value_of_uint.
  destruct (N.to_uint n) as [|d|d|d|d|d|d|d|d|d|d] eqn:E;
    [ destruct n as [|p]; [discriminate E|];
      pose proof (DecimalN.Unsigned.of_to (N.pos p)) as H; rewrite E in H;
      discriminate H
    | .. ];
    cbn [NilEmpty.string_of_uint uint_value]; read_digit;
    rewrite read_digits_uint; reflexivity.
Qed.

(** On printed digits [parseInt] skips nothing and strips nothing, with the
    radix 10 as without radix. *)
Lemma parseInt_string_uint (d : Decimal.uint) (R : Z) :
  R = 0 \/ R = 10 ->
  parseInt_string (NilEmpty.string_of_uint d) R =
  match read_digits 10 (NilEmpty.string_of_uint d) None with
  | None => NaN
  | Some m => to_double (1 * m)
  end.
Proof.
  intros [-> | ->];
    (destruct d as [|d|d|d|d|d|d|d|d|d|d]; [reflexivity|..]);
    try reflexivity;
    destruct d; reflexivity.
Qed.

Lemma parseInt_string_digits (n : N) (R : Z) :
  R = 0 \/ R = 10 ->
  parseInt_string (digits_of n) R = to_double (Z.of_N n).
Proof.
  intros HR. unfold digits_of. rewrite (parseInt_string_uint _ _ HR).
  fold (digits_of n). rewrite read_digits_of. f_equal. lia.
Qed.

Lemma append_empty (s : string) : (s ++ "")%string = s.
Proof. induction s as [|c r IH]; [reflexivity|]. cbn. now rewrite IH. Qed.

(** A JSON integer of at most 21 digits is printed as its digits. *)
Lemma Number_toString_num (n : N) :
  (String.length (digits_of n) <= 21)%nat ->
  ToString (num n) = Some (digits_of n).
Proof.
  intros L. unfold num. cbn [ToString]. f_equal.
  unfold Number_toString. cbn [coeff point negative].
  destruct (n =? 0)%N eqn:E; [apply N.eqb_eq in E; subst n; reflexivity|].
  set (k := Z.of_nat (String.length (digits_of n))).
  replace ((k <=? k) && (k <=? 21)) with true
    by (symmetry; apply andb_true_intro; split; apply Z.leb_le; lia).
  rewrite Z.sub_diag. apply append_empty.
Qed.


(** An integer up to 2^53 is a double. *)
Lemma to_double_N (n : N) :
  (n <= 2 ^ 53)%N -> to_double (Z.of_N n) = Int (Z.of_N n).
Proof.
  intros H. apply to_double_small.
  assert (Z.of_N n <= Z.of_N (2 ^ 53)) by (apply N2Z.inj_le; exact H).
  change (Z.of_N (2 ^ 53)) with (2 ^ 53) in *. lia.
Qed.


Lemma parseInt_priority_digits (bp : value) (n : N) :
  bp = Some (JString (digits_of n)) \/
  (bp = Some (num n) /\ (String.length (digits_of n) <= 21)%nat) ->
  parseInt bp 0 = Some (to_double (Z.of_N n)).
Proof.
  intros [-> | [-> L]]; unfold parseInt.
  - cbn [ToString option_map]. now rewrite parseInt_string_digits by auto.
  - rewrite (Number_toString_num n L). cbn [option_map].
    now rewrite parseInt_string_digits by auto.
Qed.

Lemma updated_In (n : number) (req : put_request) (l : list client)
  (c' : client) :
  In c' (updated n req l) -> id_matches n c' = true ->
  exists c, In c l /\ id_matches n c = true /\ c' = changed req c.
Proof.
  unfold updated. intros H M. apply in_map_iff in H.
  destruct H as [c [E I]]. exists c.
  destruct (id_matches n c) eqn:Mc; [auto|].
  subst c'. congruence.
Qed.

(** ** The fields an update changes *)

(** C6, as stated, fails: the request supplies the status [""] and the
    priority [7]; it succeeds, the priority of record 2 is changed, its
    status is not: it stays "complete". *)
Lemma C6_supplied_empty_status_is_not_applied :
  let req := mkPut "2" (Some (JString "")) (Some (num 7)) in
  body_status req = Some (JString "") /\
  put_client req board =
    (Send 200 (Rows [alice; mkClient 2 "Bob" "second client" "complete" 7]),
     mkStore [alice; mkClient 2 "Bob" "second client" "complete" 7] []) /\
  map status (rows (snd (put_client req board))) = ["backlog"; "complete"].
Proof. repeat split. Qed.

(** C6, amended: after a successful update the table is the old one with
    the identified record changed in exactly the supplied fields, a status
    counting as supplied only when it is truthy: a truthy status is one of
    the three and is stored as sent; a supplied priority replaces the stored
    one, by the integer that was sent when it was sent in decimal digits and
    a double holds it (what is stored for another priority is left open); a
    status that is absent or falsy and a priority that is absent leave the
    stored field as it is; identifier, name and description are kept, and so
    is every other record. *)
Theorem C6_only_supplied_fields_change (req : put_request) (s s' : store)
  (b : body) :
  put_client req s = (Send 200 b, s') ->
  let n := parseInt_string (params_id req) 10 in
  exists w : number,
    rows s' =
      map (fun c =>
             if id_matches n c then
               mkClient (id c) (name c) (description c)
                        (new_status (body_status req) (status c))
                        (match body_priority req with
                         | None => priority c
                         | Some _ => w
                         end)
             else c) (rows s) /\
    (truthy (body_status req) = true ->
     exists st, body_status req = Some (JString st) /\ In st statuses /\
                forall old, new_status (body_status req) old = st) /\
    (truthy (body_status req) = false ->
     forall old, new_status (body_status req) old = old) /\
    (forall k : N,
       body_priority req = Some (JString (digits_of k)) \/
       (body_priority req = Some (num k) /\
        (String.length (digits_of k) <= 21)%nat) ->
       (k <= 2 ^ 53)%N -> w = Int (Z.of_N k)).
Proof.
  intros E n.
  destruct (put_client_200 req s b s' E) as [_ [Hr [_ [_ [u [p C]]]]]].
  fold n in Hr.
  destruct req as [raw bs bp]. cbn [body_status body_priority] in *.
  destruct (collect_updates_prepare raw bs bp u p n C) as [f [_ [_ [Hs [Hp _]]]]].
  exists (new_priority bp NaN).
  split; [|split; [|split]].
  - rewrite Hr. unfold updated. apply map_ext. intros c.
    destruct (id_matches n c); [|reflexivity].
    unfold changed, new_priority. cbn [body_status body_priority].
    destruct bp as [j|]; [|reflexivity].
    destruct (Hp ltac:(discriminate)) as [w [P _]]. rewrite P. reflexivity.
  - intros T. destruct (includes_statuses _ (Hs T)) as [st [-> I]].
    exists st. split; [reflexivity|]. split; [exact I|].
    intros old. unfold new_status. rewrite T. reflexivity.
  - intros T old. unfold new_status. rewrite T. reflexivity.
  - intros k B K. pose proof (parseInt_priority_digits _ k B) as P.
    unfold new_priority.
    destruct bp as [j|]; [|destruct B as [B|[B _]]; discriminate B].
    rewrite P. apply to_double_N. exact K.
Qed.

Lemma C6_only_supplied_fields_change_witness :
  let req := mkPut "1" None (Some (JString (digits_of 5))) in
  let l := [mkClient 1 "Alice" "first client" "backlog" 5; bob] in
  put_client req board = (Send 200 (Rows l), mkStore l []) /\
  exists w : number,
    l = map (fun c =>
               if id_matches (Int 1) c then
                 mkClient (id c) (name c) (description c)
                          (new_status (body_status req) (status c))
                          (match body_priority req with
                           | None => priority c
                           | Some _ => w
                           end)
               else c) (rows board) /\
    w = Int 5.
Proof.
  split; [reflexivity|].
  destruct (C6_only_supplied_fields_change
              (mkPut "1" None (Some (JString (digits_of 5)))) board
              (mkStore [mkClient 1 "Alice" "first client" "backlog" 5; bob] [])
              (Rows [mkClient 1 "Alice" "first client" "backlog" 5; bob])
              eq_refl) as [w [R [_ [_ D]]]].
  exists w. split; [exact R|].
  apply (D 5%N); [left; reflexivity | vm_compute; discriminate].
Defined.

(** ** Error bodies *)

Lemma validateId_outcome (req : put_request) (n : number) (s : store) :
  valid (fst (validateId n s)) = false ->
  put_outcome req (send_message 400 (messageObj (fst (validateId n s)))).
Proof.
  unfold validateId, db_get_by_id. destruct (isNaN n); [constructor|].
  destruct (next_outcome s) as [[e|] s1]; [constructor|].
  destruct (find (id_matches n) (rows s)); cbn; [discriminate | constructor].
Qed.

Lemma put_update_outcome (n : number) (req : put_request) (s : store) :
  put_outcome req (fst (put_update n req s)).
Proof.
  unfold put_update, db_all.
  destruct (next_outcome s) as [[e0|] s2]; [constructor|].
  destruct (find _ (rows s)); [|constructor].
  destruct (collect_updates (body_status req) (body_priority req))
    as [r|[u p]] eqn:C; [apply put_fields; exact C|].
  destruct (db_run_update u (p ++ [PNumber n]) s2) as [[e|] s3];
    [constructor|].
  destruct (next_outcome s3) as [[e'|] s4]; constructor.
Qed.

(** Every response of the update handler is one of [put_outcome]. *)
Lemma put_client_among_outcome (others : store -> store)
  (req : put_request) (s : store) :
  put_outcome req (fst (put_client_among others req s)).
Proof.
  unfold put_client_among.
  pose proof (validateId_outcome req (parseInt_string (params_id req) 10) s) as V.
  destruct (validateId (parseInt_string (params_id req) 10) s) as [v s1].
  cbn [fst] in V. destruct (valid v); cbn [negb].
  - apply put_update_outcome.
  - apply V. reflexivity.
Qed.

(** All error bodies of the update handler carry [message] and
    [long_message], but for these two. *)
Lemma put_error_bodies (others : store -> store) (req : put_request)
  (s : store) :
  let r := fst (put_client_among others req s) in
  rejected r = true ->
  r = NoFieldsToUpdate \/ r = RecordNotFound \/
  (has_key "message" r = true /\ has_key "long_message" r = true).
Proof.
  intros r. subst r.
  destruct (put_client_among_outcome others req s) as
    [ | | e | e | | e | e | l | r C ]; intros R;
    try (right; right; split; reflexivity); auto; try discriminate R.
  revert C. unfold collect_updates.
  destruct (truthy (body_status req));
    [destruct (includes statuses (body_status req))|]; cbn [negb];
    try (intros E; injection E as <-; right; right; split; reflexivity);
    (destruct (body_priority req) as [j|];
     [destruct (parseInt (Some j) 0) as [w|];
      [ rewrite validatePriority_cases; destruct (at_least_one w) | ] | ]);
    cbn; intros E; try discriminate E; injection E as <-;
    try discriminate R; auto.
Qed.

(** C7, at an update without fields: the request is rejected with a body
    that has a [message] and no [long_message]. *)
Theorem C7_no_fields_body_lacks_long_message :
  let r := fst (put_client (mkPut "1" None None) board) in
  r = Send 400 (Object [("message", "No valid fields to update.")]) /\
  rejected r = true /\
  has_key "message" r = true /\
  has_key "long_message" r = false.
Proof. repeat split. Qed.

(** The read handlers give both keys in every error body. *)
Lemma get_error_bodies (raw : string) (q_status : value) (s : store) :
  (rejected (fst (get_client raw s)) = true ->
   has_key "message" (fst (get_client raw s)) = true /\
   has_key "long_message" (fst (get_client raw s)) = true) /\
  (rejected (fst (get_clients q_status s)) = true ->
   has_key "message" (fst (get_clients q_status s)) = true /\
   has_key "long_message" (fst (get_clients q_status s)) = true).
Proof.
  split.
  - unfold get_client, get_client_among, validateId, db_get_by_id.
    destruct (isNaN (parseInt_string raw 10)); [split; reflexivity|].
    destruct (next_outcome s) as [[e|] s1]; [split; reflexivity|].
    destruct (find _ (rows s)); cbn [valid negb fst snd];
      [|split; reflexivity].
    destruct (next_outcome s1) as [[e|] s2]; [split; reflexivity|].
    cbn [fst snd rows]. destruct (find _ (rows s1)); discriminate.
  - unfold get_clients.
    destruct (truthy q_status && negb (includes statuses q_status));
      [split; reflexivity|].
    assert (A : forall r : (string + list client) * store,
               rejected (fst (let '(r0, s') := r in
                  match r0 with
                  | inl e => (Send 500 (Object [("message", "DB error.");
                                                ("long_message", e)]), s')
                  | inr l => (Send 200 (Rows l), s')
                  end)) = true ->
               has_key "message" (fst (let '(r0, s') := r in
                  match r0 with
                  | inl e => (Send 500 (Object [("message", "DB error.");
                                                ("long_message", e)]), s')
                  | inr l => (Send 200 (Rows l), s')
                  end)) = true /\
               has_key "long_message" (fst (let '(r0, s') := r in
                  match r0 with
                  | inl e => (Send 500 (Object [("message", "DB error.");
                                                ("long_message", e)]), s')
                  | inr l => (Send 200 (Rows l), s')
                  end)) = true).
    { intros [[e|l] s']; [split; reflexivity | discriminate]. }
    apply A.
Qed.

(** ** A falsy status *)

Lemma collect_updates_absent_status (bp : value) :
  collect_updates None bp <> inl InvalidStatus.
Proof.
  unfold collect_updates. cbn [truthy].
  destruct bp as [j|]; [|discriminate].
  destruct (parseInt (Some j) 0) as [w|]; try discriminate.
  rewrite validatePriority_cases. destruct (at_least_one w); discriminate.
Qed.

(** C9: a falsy status (the empty string, [0], [false], [null]) is handled
    as an absent one: the request has the response and the effect of the
    same request without status, and InvalidStatus is not among its
    responses; without a priority nothing is written, and on an existing
    identifier (with the two reads of the handler answered) the answer is
    NoFieldsToUpdate. *)
Theorem C9_falsy_status_is_absent (req : put_request) (s : store) :
  truthy (body_status req) = false ->
  put_client req s =
    put_client (mkPut (params_id req) None (body_priority req)) s /\
  fst (put_client req s) <> InvalidStatus /\
  (body_priority req = None ->
   rows (snd (put_client req s)) = rows s /\
   (existing (params_id req) s = true -> succeed 2 s = true ->
    fst (put_client req s) = NoFieldsToUpdate)).
Proof.
  intros T. split; [|split].
  - unfold put_client, put_client_among, put_update.
    cbn [params_id body_status body_priority].
    rewrite (collect_updates_falsy _ _ T). reflexivity.
  - intros H.
    pose proof (put_client_among_outcome (fun s1 => s1) req s) as O.
    fold (put_client req s) in O. rewrite H in O.
    inversion O as [ | | | | | | | | r C E ].
    rewrite (collect_updates_falsy _ _ T) in C.
    exact (collect_updates_absent_status _ C).
  - intros P.
    assert (C : collect_updates (body_status req) (body_priority req)
                = inl NoFieldsToUpdate)
      by (rewrite (collect_updates_falsy _ _ T), P; reflexivity).
    split; [apply (put_client_stopped req s _ C)|].
    intros K S. apply (put_client_rejects_rows req s _ K S C).
Qed.

Lemma C9_falsy_status_is_absent_witness :
  let req := mkPut "1" (Some (JString "")) None in
  (truthy (body_status req) = false /\
   existing (params_id req) board = true /\ succeed 2 board = true) /\
  put_client req board = put_client (mkPut "1" None None) board /\
  fst (put_client req board) <> InvalidStatus /\
  rows (snd (put_client req board)) = rows board /\
  fst (put_client req board) = NoFieldsToUpdate.
Proof.
  split; [repeat split|].
  destruct (C9_falsy_status_is_absent
              (mkPut "1" (Some (JString "")) None) board eq_refl)
    as [A [B C]].
  split; [exact A|]. split; [exact B|].
  destruct (C eq_refl) as [R E].
  split; [exact R | exact (E eq_refl eq_refl)].
Defined.

(** ** The not-found branch *)

Lemma put_update_found (n : number) (req : put_request) (s : store) :
  is_double n ->
  existsb (id_matches n) (rows s) = true ->
  forall b, fst (put_update n req s) <> Send 404 b.
Proof.
  intros D K b. unfold put_update, db_all.
  destruct (next_outcome s) as [[e0|] s2]; [discriminate|].
  pose proof (find_strict_eq n _ D K) as F.
  destruct (find _ (rows s)); [|congruence].
  destruct (collect_updates (body_status req) (body_priority req))
    as [r|[u p]] eqn:C.
  - destruct (collect_updates_inl _ _ _ C) as [->|[b' ->]]; discriminate.
  - destruct (db_run_update u (p ++ [PNumber n]) s2) as [[e|] s3];
      [discriminate|].
    destruct (next_outcome s3) as [[e'|] s4]; discriminate.
Qed.

(** C10: when the table is the same at the handler's re-read as it was at
    the validator's lookup, no response is the 404 "Client not found."; an
    identifier that names no record is answered by the validator's 400,
    which is InvalidIdentifier once its lookup is answered. *)
Theorem C10_not_found_branch_is_unreachable (others : store -> store)
  (req : put_request) (s : store) :
  let n := parseInt_string (params_id req) 10 in
  rows (others (snd (validateId n s))) = rows (snd (validateId n s)) ->
  (forall b, fst (put_client_among others req s) <> Send 404 b) /\
  (existing (params_id req) s = false ->
   put_client_among others req s =
     (send_message 400 (messageObj (fst (validateId n s))),
      snd (validateId n s)) /\
   (succeed 1 s = true ->
    fst (put_client_among others req s) =
      (if isNaN n then InvalidIdentifier_not_integer
       else InvalidIdentifier_not_found) /\
    rows (snd (put_client_among others req s)) = rows s)).
Proof.
  intros n Same. split.
  - intros b. unfold put_client_among. fold n.
    destruct (validateId n s) as [v s1] eqn:V. cbn [snd] in Same.
    destruct (valid v) eqn:Hv; cbn [negb].
    + assert (Hv' : valid (fst (validateId n s)) = true) by now rewrite V.
      destruct (validateId_valid _ _ Hv') as [K _].
      apply put_update_found; [apply parseInt_string_is_double|].
      rewrite Same.
      pose proof (validateId_rows n s) as R. rewrite V in R. cbn [snd] in R.
      rewrite R. exact K.
    + destruct (messageObj v); discriminate.
  - intros K. unfold existing in K. fold n in K.
    assert (Hv : valid (fst (validateId n s)) = false).
    { destruct (valid (fst (validateId n s))) eqn:Hv; [|reflexivity].
      destruct (validateId_valid _ _ Hv) as [K' _]. congruence. }
    assert (E : put_client_among others req s =
                (send_message 400 (messageObj (fst (validateId n s))),
                 snd (validateId n s))).
    { unfold put_client_among. fold n.
      destruct (validateId n s) as [v s1]. cbn [fst snd] in *.
      rewrite Hv. reflexivity. }
    split; [exact E|]. intros S. rewrite E. cbn [fst snd].
    destruct (succeed_next _ _ S) as [O _].
    split; [apply validateId_missing; assumption | apply validateId_rows].
Qed.

Lemma C10_not_found_branch_is_unreachable_witness :
  let req := mkPut "999" (Some (JString "complete")) None in
  let n := parseInt_string (params_id req) 10 in
  (rows (snd (validateId n board)) = rows (snd (validateId n board)) /\
   existing (params_id req) board = false /\ succeed 1 board = true) /\
  (forall b, fst (put_client req board) <> Send 404 b) /\
  fst (put_client req board) = InvalidIdentifier_not_found /\
  rows (snd (put_client req board)) = rows board.
Proof.
  split; [repeat split|].
  destruct (C10_not_found_branch_is_unreachable (fun s1 => s1)
              (mkPut "999" (Some (JString "complete")) None) board eq_refl)
    as [A B].
  split; [exact A|].
  destruct (B eq_refl) as [_ C]. exact (C eq_refl).
Defined.

(** Beyond 2^53 the path is read as the nearest double: the path
    9007199254740993 names the record 9007199254740992, which exists here, is
    found by both lookups and is written. *)
Example path_beyond_2_53_names_the_nearest_double :
  let far := mkClient 9007199254740992 "Far" "" "backlog" 1 in
  existing "9007199254740993" (mkStore [far] []) = true /\
  put_client (mkPut "9007199254740993" (Some (JString "complete")) None)
             (mkStore [far] []) =
    (Send 200 (Rows [mkClient 9007199254740992 "Far" "" "complete" 1]),
     mkStore [mkClient 9007199254740992 "Far" "" "complete" 1] []).
Proof. split; vm_compute; reflexivity. Qed.

(** Without that precondition the branch is reached: the row is deleted
    between the lookup and the re-read. *)
Example not_found_when_row_vanishes :
  fst (put_client_among (fun s1 => mkStore [bob] (outcomes s1))
         (mkPut "1" (Some (JString "complete")) None) board)
  = RecordNotFound.
Proof. reflexivity. Qed.

(** * Further properties of the handlers *)

(** ** A priority sent in decimal digits *)



(** A priority beyond 2^53 is stored as the nearest double. *)
Example put_priority_beyond_2_53 :
  rows (snd (put_client (mkPut "1" None (Some (JString "9007199254740993")))
                        board))
  = [mkClient 1 "Alice" "first client" "backlog" 9007199254740992; bob].
Proof. vm_compute. reflexivity. Qed.

(** ** The read handlers *)

Lemma find_In_matches {A} (f : A -> bool) (l : list A) (a : A) :
  find f l = Some a -> In a l /\ f a = true.
Proof. apply find_some. Qed.

(** X2: get-by-identifier and list never change the table, whatever the
    input and whatever the store answers. *)
Theorem X2_reads_do_not_write (raw : string) (q_status : value) (s : store) :
  rows (snd (get_client raw s)) = rows s /\
  rows (snd (get_clients q_status s)) = rows s.
Proof.
  split.
  - unfold get_client, get_client_among.
    pose proof (validateId_rows (parseInt_string raw 10) s) as R1.
    destruct (validateId (parseInt_string raw 10) s) as [v s1].
    cbn [snd] in R1. destruct (valid v); cbn [negb]; [|exact R1].
    pose proof (db_get_by_id_rows (parseInt_string raw 10) s1) as R2.
    destruct (db_get_by_id (parseInt_string raw 10) s1) as [[e|[c|]] s2];
      cbn [snd] in *; congruence.
  - unfold get_clients.
    destruct (truthy q_status && negb (includes statuses q_status));
      [reflexivity|].
    assert (A : forall r : (string + list client) * store,
               rows (snd r) = rows s ->
               rows (snd (let '(r0, s') := r in
                          match r0 with
                          | inl e =>
                              (Send 500 (Object [("message", "DB error.");
                                                 ("long_message", e)]), s')
                          | inr l => (Send 200 (Rows l), s')
                          end)) = rows s).
    { intros [[e|l] s'] H; exact H. }
    apply A.
    destruct (truthy q_status); [|apply db_all_rows].
    destruct q_status as [[| | | |st| |]|]; try apply db_all_rows.
    unfold db_all_by_status. pose proof (next_outcome_rows s) as R.
    destruct (next_outcome s) as [[e|] s']; exact R.
Qed.

(** X3: when the table is the same at the handler's own lookup as it was
    at the validator's, a 200 from get-by-identifier carries a row of the
    table whose identifier is the number [parseInt] reads in the path (the
    nearest double, beyond 2^53); its body is not empty. *)
Theorem X3_get_client_returns_a_row_of_that_id (others : store -> store)
  (raw : string) (s : store) (b : body) :
  let n := parseInt_string raw 10 in
  rows (others (snd (validateId n s))) = rows (snd (validateId n s)) ->
  fst (get_client_among others raw s) = Send 200 b ->
  exists c, b = Row c /\ In c (rows s) /\ n = Int (id c).
Proof.
  intros n Same. unfold get_client_among. fold n.
  destruct (validateId n s) as [v s1] eqn:V. cbn [snd] in Same.
  destruct (valid v) eqn:Hv; cbn [negb].
  - assert (Hv' : valid (fst (validateId n s)) = true) by now rewrite V.
    destruct (validateId_valid _ _ Hv') as [K _].
    pose proof (validateId_rows n s) as R1. rewrite V in R1. cbn [snd] in R1.
    unfold db_get_by_id.
    destruct (next_outcome (others s1)) as [[e|] s2]; cbn [fst];
      [intros E; discriminate E|].
    rewrite Same, R1.
    destruct (find (id_matches n) (rows s)) as [c|] eqn:F.
    + intros E. injection E as <-. exists c.
      destruct (find_In_matches _ _ _ F) as [I M].
      split; [reflexivity|]. split; [exact I|].
      destruct n as [|z|neg]; try discriminate M.
      cbn in M. apply Z.eqb_eq in M. now subst z.
    + apply find_existsb in K. congruence.
  - destruct (messageObj v); cbn; intros E; discriminate E.
Qed.

Lemma X3_get_client_returns_a_row_of_that_id_witness :
  let n := parseInt_string " 2nd" 10 in
  (rows (snd (validateId n board)) = rows (snd (validateId n board)) /\
   fst (get_client " 2nd" board) = Send 200 (Row bob)) /\
  exists c, Row bob = Row c /\ In c (rows board) /\ n = Int (id c).
Proof.
  split; [split; reflexivity|].
  apply (X3_get_client_returns_a_row_of_that_id (fun s1 => s1) " 2nd" board
           (Row bob) eq_refl).
  reflexivity.
Defined.

(** Without that precondition the 200 can be empty: the row is deleted
    between the two lookups. *)
Example get_client_empty_when_row_vanishes :
  fst (get_client_among (fun s1 => mkStore [alice] (outcomes s1)) "2" board)
  = Send 200 NoBody.
Proof. reflexivity. Qed.

(** X4: the decimal digits of the identifier of a stored row, an integer
    from 0 to 2^53, sent as the path, get a 200 with a row of that identifier
    (the first one the table has), once the store answers the two lookups
    and when nothing else changes the table between them. *)
Theorem X4_get_client_by_decimal_id (others : store -> store) (c : client)
  (s : store) :
  (forall t, rows (others t) = rows t) ->
  (forall t, fst (next_outcome (others t)) = fst (next_outcome t)) ->
  In c (rows s) -> 0 <= id c <= 2 ^ 53 -> succeed 2 s = true ->
  exists c',
    fst (get_client_among others (digits_of (Z.to_N (id c))) s)
      = Send 200 (Row c') /\
    id c' = id c /\ In c' (rows s).
Proof.
  intros Same Out I P S. unfold get_client_among.
  rewrite parseInt_string_digits by auto.
  rewrite Z2N.id by lia.
  rewrite to_double_small by lia.
  destruct (succeed_next _ _ S) as [O1 S1].
  destruct (succeed_next _ _ S1) as [O2 _].
  assert (K : existsb (id_matches (Int (id c))) (rows s) = true).
  { apply existsb_exists. exists c. split; [exact I|]. cbn. apply Z.eqb_refl. }
  rewrite (validateId_existing _ _ K O1). cbn [valid negb].
  unfold db_get_by_id.
  pose proof (Out (snd (next_outcome s))) as O2'. rewrite O2 in O2'.
  destruct (next_outcome (others (snd (next_outcome s)))) as [o s2] eqn:N2.
  cbn [fst] in O2'. subst o.
  rewrite Same, next_outcome_rows.
  apply find_existsb in K.
  destruct (find (id_matches (Int (id c))) (rows s)) as [c'|] eqn:F;
    [|congruence].
  destruct (find_In_matches _ _ _ F) as [I' M].
  exists c'. split; [reflexivity|]. split; [|exact I'].
  cbn in M. now apply Z.eqb_eq in M.
Qed.

Lemma X4_get_client_by_decimal_id_witness :
  (In bob (rows board) /\ 0 <= id bob <= 2 ^ 53 /\ succeed 2 board = true) /\
  exists c',
    fst (get_client (digits_of (Z.to_N (id bob))) board) = Send 200 (Row c') /\
    id c' = id bob /\ In c' (rows board).
Proof.
  assert (I : In bob (rows board)) by (right; left; reflexivity).
  assert (P : 0 <= id bob <= 2 ^ 53) by (cbn; lia).
  split; [split; [exact I | split; [exact P | reflexivity]]|].
  apply (X4_get_client_by_decimal_id (fun s1 => s1) bob board
           (fun t => eq_refl) (fun t => eq_refl) I P eq_refl).
Defined.

(** X5: with the store answering, the list handler returns the whole table
    when the status is absent or falsy (the empty string of [?status=]), and
    exactly the rows of that status, in the order of the table, when the
    status is one of the three. *)
Theorem X5_get_clients_lists (q_status : value) (s : store) :
  succeed 1 s = true ->
  (truthy q_status = false ->
   fst (get_clients q_status s) = Send 200 (Rows (rows s))) /\
  (forall st, q_status = Some (JString st) -> In st statuses ->
     exists l,
       fst (get_clients q_status s) = Send 200 (Rows l) /\
       l = filter (fun c => status c =? st)%string (rows s) /\
       forall c, In c l <-> In c (rows s) /\ status c = st).
Proof.
  intros S. destruct (succeed_next _ _ S) as [O _]. split.
  - intros T. unfold get_clients. rewrite T. cbn [andb].
    unfold db_all. destruct (next_outcome s) as [o s']. cbn [fst] in O.
    subst o. reflexivity.
  - intros st -> I.
    assert (T : truthy (Some (JString st)) = true).
    { destruct st; [|reflexivity].
      cbn in I. destruct I as [I|[I|[I|[]]]]; discriminate I. }
    assert (Inc : includes statuses (Some (JString st)) = true).
    { cbn [includes]. apply existsb_exists. exists st.
      split; [exact I | apply String.eqb_refl]. }
    unfold get_clients. rewrite T, Inc. cbn [andb negb].
    unfold db_all_by_status. destruct (next_outcome s) as [o s'].
    cbn [fst] in O. subst o. eexists. split; [reflexivity|].
    split; [reflexivity|]. intros c. rewrite filter_In.
    now rewrite String.eqb_eq.
Qed.

Lemma X5_get_clients_lists_witness :
  succeed 1 board = true /\
  fst (get_clients (Some (JString "")) board) = Send 200 (Rows [alice; bob]) /\
  exists l,
    fst (get_clients (Some (JString "complete")) board) = Send 200 (Rows l) /\
    l = filter (fun c => status c =? "complete")%string (rows board) /\
    forall c, In c l <-> In c (rows board) /\ status c = "complete".
Proof.
  split; [reflexivity|].
  split.
  - apply (X5_get_clients_lists (Some (JString "")) board eq_refl).
    reflexivity.
  - apply (proj2 (X5_get_clients_lists (Some (JString "complete")) board
                    eq_refl) "complete" eq_refl).
    right; right; left; reflexivity.
Defined.

(** ** What an update keeps *)

(** The table after the handler: as it was, or updated by a request whose
    fields passed. *)
Lemma put_client_rows_cases (req : put_request) (s : store) :
  rows (snd (put_client req s)) = rows s \/
  (rows (snd (put_client req s)) =
     updated (parseInt_string (params_id req) 10) req (rows s) /\
   exists u p,
     collect_updates (body_status req) (body_priority req) = inr (u, p)).
Proof.
  destruct (collect_updates (body_status req) (body_priority req))
    as [r|[u p]] eqn:C.
  - left. apply (put_client_stopped req s r C).
  - destruct (put_client_rows req s) as [H|H]; [left; exact H|].
    right. split; [exact H|]. exists u, p. reflexivity.
Qed.

Lemma changed_well_kept (req : put_request) (u : list string)
  (p : list param) (c : client) :
  collect_updates (body_status req) (body_priority req) = inr (u, p) ->
  well_kept c = true -> well_kept (changed req c) = true.
Proof.
  intros C W. destruct req as [raw bs bp]. cbn [body_status body_priority] in C.
  destruct (collect_updates_prepare raw bs bp u p NaN C)
    as [f [_ [_ [Hs [Hp _]]]]].
  unfold well_kept in *. apply andb_prop in W. destruct W as [W1 W2].
  unfold changed, new_status, new_priority.
  cbn [status priority body_status body_priority].
  apply andb_true_intro. split.
  - destruct (truthy bs) eqn:T; [|exact W1].
    destruct (includes_statuses _ (Hs eq_refl)) as [st [-> I]].
    apply existsb_exists. exists st. split; [exact I | apply String.eqb_refl].
  - destruct bp as [j|]; [|exact W2].
    destruct Hp as [w [P A]]; [discriminate|]. rewrite P. exact A.
Qed.

(** X6: the update handler keeps the invariant of the data model: when
    every row has a status of the set and a priority of at least 1, so has
    every row after the request, whatever the request and whatever the store
    answers. *)
Theorem X6_update_keeps_rows_well_kept (req : put_request) (s : store) :
  forallb well_kept (rows s) = true ->
  forallb well_kept (rows (snd (put_client req s))) = true.
Proof.
  intros W. destruct (put_client_rows_cases req s) as [H|[H [u [p C]]]];
    rewrite H; [exact W|].
  unfold updated. rewrite forallb_forall in *. intros c' I.
  apply in_map_iff in I. destruct I as [c [<- I]].
  destruct (id_matches _ c); [|apply W; exact I].
  apply (changed_well_kept req u p c C). apply W. exact I.
Qed.

Lemma X6_update_keeps_rows_well_kept_witness :
  let req := mkPut "1" (Some (JString "complete")) (Some (JString "7")) in
  forallb well_kept (rows board) = true /\
  rows (snd (put_client req board)) =
    [mkClient 1 "Alice" "first client" "complete" 7; bob] /\
  forallb well_kept (rows (snd (put_client req board))) = true.
Proof.
  split; [reflexivity|]. split; [reflexivity|].
  apply (X6_update_keeps_rows_well_kept
           (mkPut "1" (Some (JString "complete")) (Some (JString "7"))) board).
  reflexivity.
Defined.

(** X7: the update handler never adds, removes or reorders rows and never
    touches an identifier, a name or a description, whatever the request and
    whatever the store answers. *)
Theorem X7_update_keeps_identities (req : put_request) (s : store) :
  map identity (rows (snd (put_client req s))) = map identity (rows s).
Proof.
  destruct (put_client_rows req s) as [H|H]; rewrite H; [reflexivity|].
  unfold updated. rewrite map_map. apply map_ext. intros c.
  destruct (id_matches _ c); reflexivity.
Qed.

(** ** Store failures *)

(** X8: when the store fails the lookup of the identifier validator, both
    handlers that take an identifier answer 400 (not 500) with "DB error." and
    the message of the store, and go no further. *)
Theorem X8_lookup_failure_is_a_400 (raw : string) (s : store) (e : string) :
  leading_integer raw = true ->
  fst (next_outcome s) = Some e ->
  let r := Send 400 (Object [("message", "DB error."); ("long_message", e)]) in
  get_client raw s = (r, snd (next_outcome s)) /\
  forall b_status b_priority,
    put_client (mkPut raw b_status b_priority) s = (r, snd (next_outcome s)).
Proof.
  intros L O r.
  assert (N : isNaN (parseInt_string raw 10) = false).
  { destruct (parseInt_string raw 10) eqn:P; try reflexivity.
    apply parseInt_NaN_leading in P. congruence. }
  assert (V : validateId (parseInt_string raw 10) s =
              (mkValidation false
                 (Some [("message", "DB error."); ("long_message", e)]),
               snd (next_outcome s))).
  { unfold validateId, db_get_by_id. rewrite N.
    destruct (next_outcome s) as [o s']. cbn [fst snd] in *. subst o.
    reflexivity. }
  split.
  - unfold get_client, get_client_among. rewrite V. reflexivity.
  - intros bs bp. unfold put_client, put_client_among. cbn [params_id].
    rewrite V. reflexivity.
Qed.

Lemma X8_lookup_failure_is_a_400_witness :
  let s := mkStore [alice; bob] [Some "SQLITE_BUSY: database is locked"] in
  let r := Send 400 (Object [("message", "DB error.");
                             ("long_message", "SQLITE_BUSY: database is locked")]) in
  (leading_integer "1" = true /\
   fst (next_outcome s) = Some "SQLITE_BUSY: database is locked") /\
  get_client "1" s = (r, mkStore [alice; bob] []) /\
  put_client (mkPut "1" (Some (JString "complete")) None) s =
    (r, mkStore [alice; bob] []).
Proof.
  split; [split; reflexivity|].
  destruct (X8_lookup_failure_is_a_400 "1"
              (mkStore [alice; bob] [Some "SQLITE_BUSY: database is locked"])
              "SQLITE_BUSY: database is locked" eq_refl eq_refl) as [G P].
  split; [exact G | apply P].
Defined.

Lemma next_outcome_cons (s : store) (o : option string)
  (os : list (option string)) :
  outcomes s = o :: os -> next_outcome s = (o, mkStore (rows s) os).
Proof. intros H. unfold next_outcome. rewrite H. reflexivity. Qed.

(** The handler from its write on: on an existing identifier, with the two
    reads answered and fields that pass. *)
Lemma put_client_writes (req : put_request) (s : store)
  (u : list string) (p : list param) :
  existing (params_id req) s = true ->
  succeed 2 s = true ->
  collect_updates (body_status req) (body_priority req) = inr (u, p) ->
  let n := parseInt_string (params_id req) 10 in
  let s2 := snd (next_outcome (snd (next_outcome s))) in
  put_client req s =
  match fst (next_outcome s2) with
  | Some e =>
      (Send 500 (Object [("message", "DB update error."); ("long_message", e)]),
       snd (next_outcome s2))
  | None =>
      let s3 := mkStore (updated n req (rows s))
                        (outcomes (snd (next_outcome s2))) in
      match fst (next_outcome s3) with
      | Some e =>
          (Send 500 (Object [("message", "DB fetch error.");
                             ("long_message", e)]),
           snd (next_outcome s3))
      | None => (Send 200 (Rows (updated n req (rows s))), snd (next_outcome s3))
      end
  end.
Proof.
  intros K S C n s2. unfold put_client, put_client_among, existing in *.
  fold n in K |- *.
  destruct (succeed_next _ _ S) as [O1 S1].
  destruct (succeed_next _ _ S1) as [O2 _].
  rewrite (validateId_existing _ _ K O1). cbn [valid negb].
  set (s1 := snd (next_outcome s)) in *.
  assert (R1 : rows s1 = rows s) by apply next_outcome_rows.
  unfold put_update, db_all. subst s2.
  pose proof (next_outcome_rows s1) as R2.
  destruct (next_outcome s1) as [o2 s2]. cbn [fst snd] in *. subst o2.
  assert (F : find (fun c => strict_eq (to_double (id c)) n) (rows s1)
              <> None)
    by (apply find_strict_eq;
        [apply parseInt_string_is_double | now rewrite R1]).
  destruct (find _ (rows s1)); [|congruence].
  rewrite C.
  destruct req as [raw bs bp]; cbn [body_status body_priority] in C.
  destruct (collect_updates_prepare raw bs bp u p n C) as [f [P [Hf _]]].
  unfold db_run_update.
  destruct (next_outcome s2) as [[e|] s3]; cbn [fst snd]; [reflexivity|].
  rewrite P.
  assert (E : map (fun c0 => if id_matches n c0 then f c0 else c0) (rows s2)
              = updated n (mkPut raw bs bp) (rows s)).
  { rewrite R2, R1. unfold updated. apply map_ext. intros c0.
    now rewrite Hf. }
  rewrite E.
  match goal with
  | |- context [next_outcome {| rows := ?r; outcomes := ?o |}] =>
      destruct (next_outcome {| rows := r; outcomes := o |}) as [[e|] s4]
  end; reflexivity.
Qed.

Lemma put_client_unknown (req : put_request) (s : store) :
  existing (params_id req) s = false ->
  fst (next_outcome s) = None ->
  fst (put_client req s) =
    (if isNaN (parseInt_string (params_id req) 10)
     then InvalidIdentifier_not_integer else InvalidIdentifier_not_found).
Proof.
  intros K O. unfold existing in K.
  destruct (validateId_missing _ _ K O) as [M V].
  unfold put_client, put_client_among.
  destruct (validateId (parseInt_string (params_id req) 10) s) as [v s1].
  cbn [fst] in *. rewrite V. cbn [negb fst]. exact M.
Qed.

(** X9: a 500 comes from the store only: when the store answers its calls,
    no handler answers 500; in particular every UPDATE statement that the
    update handler builds is one the store accepts. *)
Theorem X9_no_500_while_the_store_answers (req : put_request)
  (raw : string) (q_status : value) (s : store) :
  succeed 4 s = true ->
  (forall b, fst (put_client req s) <> Send 500 b) /\
  (forall b, fst (get_client raw s) <> Send 500 b) /\
  (forall b, fst (get_clients q_status s) <> Send 500 b).
Proof.
  intros S4.
  pose proof (succeed_weaken _ _ S4) as S3.
  pose proof (succeed_weaken _ _ S3) as S2.
  pose proof (succeed_weaken _ _ S2) as S1.
  destruct (succeed_next _ _ S2) as [O1 S1'].
  destruct (succeed_next _ _ S1') as [O2 _].
  split; [|split]; intros b.
  - destruct (existing (params_id req) s) eqn:K.
    + destruct (collect_updates (body_status req) (body_priority req))
        as [r|[u p]] eqn:C.
      * rewrite (put_client_rejects req s r K S2 C). cbn [fst].
        destruct (collect_updates_inl _ _ _ C) as [->|[b' ->]]; discriminate.
      * destruct (put_client_accepts req s u p K S4 C) as [H _].
        rewrite H. discriminate.
    + rewrite (put_client_unknown req s K O1).
      destruct (isNaN _); discriminate.
  - unfold get_client, get_client_among, validateId, db_get_by_id.
    destruct (isNaN (parseInt_string raw 10)); [discriminate|].
    destruct (next_outcome s) as [o s1]. cbn [fst snd] in *. subst o.
    destruct (find _ (rows s)); cbn [valid negb]; [|discriminate].
    destruct (next_outcome s1) as [o s2]. cbn [fst] in O2. subst o.
    destruct (find _ (rows s1)); discriminate.
  - unfold get_clients.
    destruct (truthy q_status && negb (includes statuses q_status));
      [discriminate|].
    unfold db_all_by_status, db_all.
    destruct (next_outcome s) as [o s1]. cbn [fst] in O1. subst o.
    destruct (truthy q_status); [|discriminate].
    destruct q_status as [[| | | |st| |]|]; discriminate.
Qed.

Lemma X9_no_500_while_the_store_answers_witness :
  succeed 4 board = true /\
  (forall b, fst (put_client (mkPut "1" (Some (JString "complete")) None) board)
             <> Send 500 b) /\
  (forall b, fst (get_client "1" board) <> Send 500 b) /\
  (forall b, fst (get_clients None board) <> Send 500 b).
Proof.
  split; [reflexivity|].
  apply (X9_no_500_while_the_store_answers
           (mkPut "1" (Some (JString "complete")) None) "1" None board).
  reflexivity.
Defined.

Lemma succeed_two (s : store) (os : list (option string)) :
  outcomes s = None :: None :: os -> succeed 2 s = true.
Proof. intros H. unfold succeed. rewrite H. reflexivity. Qed.

(** X10: when the store fails the UPDATE, the answer is 500 "DB update
    error." with the message of the store, and no row is changed. *)
Theorem X10_write_failure_changes_nothing (req : put_request) (s : store)
  (u : list string) (p : list param) (e : string)
  (os : list (option string)) :
  existing (params_id req) s = true ->
  collect_updates (body_status req) (body_priority req) = inr (u, p) ->
  outcomes s = None :: None :: Some e :: os ->
  put_client req s =
    (Send 500 (Object [("message", "DB update error."); ("long_message", e)]),
     mkStore (rows s) os).
Proof.
  intros K C H.
  rewrite (put_client_writes req s u p K (succeed_two _ _ H) C).
  rewrite (next_outcome_cons _ _ _ H). cbn [snd].
  rewrite (next_outcome_cons (mkStore (rows s) (None :: Some e :: os))
             None (Some e :: os) eq_refl). cbn [snd rows].
  reflexivity.
Qed.

Lemma X10_write_failure_changes_nothing_witness :
  let req := mkPut "1" (Some (JString "complete")) None in
  let s := mkStore [alice; bob] [None; None; Some "SQLITE_READONLY"] in
  (existing (params_id req) s = true /\
   collect_updates (body_status req) (body_priority req) =
     inr (["status = ?"], [PValue (Some (JString "complete"))])) /\
  put_client req s =
    (Send 500 (Object [("message", "DB update error.");
                       ("long_message", "SQLITE_READONLY")]),
     mkStore [alice; bob] []).
Proof.
  split; [split; reflexivity|].
  apply (X10_write_failure_changes_nothing
           (mkPut "1" (Some (JString "complete")) None)
           (mkStore [alice; bob] [None; None; Some "SQLITE_READONLY"])
           ["status = ?"] [PValue (Some (JString "complete"))]
           "SQLITE_READONLY" []); reflexivity.
Defined.

(** X11: when the UPDATE succeeds and the store fails the read that follows
    it, the answer is 500 "DB fetch error.", yet the update is written: a 500
    does not mean that nothing was changed. *)
Theorem X11_fetch_failure_after_the_write (req : put_request) (s : store)
  (u : list string) (p : list param) (e : string)
  (os : list (option string)) :
  existing (params_id req) s = true ->
  collect_updates (body_status req) (body_priority req) = inr (u, p) ->
  outcomes s = None :: None :: None :: Some e :: os ->
  put_client req s =
    (Send 500 (Object [("message", "DB fetch error."); ("long_message", e)]),
     mkStore (updated (parseInt_string (params_id req) 10) req (rows s)) os).
Proof.
  intros K C H.
  rewrite (put_client_writes req s u p K (succeed_two _ _ H) C).
  rewrite (next_outcome_cons _ _ _ H). cbn [snd].
  rewrite (next_outcome_cons (mkStore (rows s) (None :: None :: Some e :: os))
             None (None :: Some e :: os) eq_refl). cbn [snd rows].
  rewrite (next_outcome_cons (mkStore (rows s) (None :: Some e :: os))
             None (Some e :: os) eq_refl). cbn [fst snd rows outcomes].
  reflexivity.
Qed.

Lemma X11_fetch_failure_after_the_write_witness :
  let req := mkPut "1" (Some (JString "complete")) None in
  let s := mkStore [alice; bob] [None; None; None; Some "SQLITE_BUSY"] in
  (existing (params_id req) s = true /\
   collect_updates (body_status req) (body_priority req) =
     inr (["status = ?"], [PValue (Some (JString "complete"))])) /\
  put_client req s =
    (Send 500 (Object [("message", "DB fetch error.");
                       ("long_message", "SQLITE_BUSY")]),
     mkStore [mkClient 1 "Alice" "first client" "complete" 1; bob] []).
Proof.
  split; [split; reflexivity|].
  apply (X11_fetch_failure_after_the_write
           (mkPut "1" (Some (JString "complete")) None)
           (mkStore [alice; bob] [None; None; None; Some "SQLITE_BUSY"])
           ["status = ?"] [PValue (Some (JString "complete"))]
           "SQLITE_BUSY" []); reflexivity.
Defined.

(** ** Handlers one after the other *)

Lemma id_matches_changed (n : number) (req : put_request) (c : client) :
  id_matches n (changed req c) = id_matches n c.
Proof. destruct n; reflexivity. Qed.

Lemma find_updated (n : number) (req : put_request) (l : list client) :
  find (id_matches n) (updated n req l) =
  option_map (changed req) (find (id_matches n) l).
Proof.
  unfold updated. induction l as [|c l IH]; [reflexivity|].
  cbn [map find]. destruct (id_matches n c) eqn:M.
  - rewrite id_matches_changed, M. reflexivity.
  - rewrite M. exact IH.
Qed.

(** X12: after an accepted update, get-by-identifier with the same path
    (the store answering, nothing else changing the table meanwhile) returns
    the row that the update addressed: with the status that was sent, with
    the number [parseInt] read in the priority that was sent (the priority
    itself when it was sent as the decimal digits of an integer up to 2^53;
    1.5 comes back as 1), and with the other fields as before. *)
Theorem X12_update_then_get (others : store -> store) (req : put_request)
  (s s1 : store) (b : body) :
  put_client req s = (Send 200 b, s1) ->
  (forall t, rows (others t) = rows t) ->
  (forall t, fst (next_outcome (others t)) = fst (next_outcome t)) ->
  succeed 2 s1 = true ->
  exists c,
    In c (rows s) /\
    parseInt_string (params_id req) 10 = Int (id c) /\
    fst (get_client_among others (params_id req) s1)
      = Send 200 (Row (changed req c)) /\
    identity (changed req c) = identity c /\
    (forall st, body_status req = Some (JString st) -> st <> "" ->
                status (changed req c) = st) /\
    (body_status req = None -> status (changed req c) = status c) /\
    (forall w, body_priority req <> None ->
               parseInt (body_priority req) 0 = Some w ->
               priority (changed req c) = w) /\
    (forall k : N,
       body_priority req = Some (JString (digits_of k)) \/
       (body_priority req = Some (num k) /\
        (String.length (digits_of k) <= 21)%nat) ->
       (k <= 2 ^ 53)%N -> priority (changed req c) = Int (Z.of_N k)) /\
    (body_priority req = None -> priority (changed req c) = priority c).
Proof.
  intros E Same Out S. set (n := parseInt_string (params_id req) 10).
  destruct (put_client_200 req s b s1 E) as [_ [Hr [K _]]]. fold n in Hr, K.
  destruct (succeed_next _ _ S) as [O1 S1].
  destruct (succeed_next _ _ S1) as [O2 _].
  apply find_existsb in K.
  destruct (find (id_matches n) (rows s)) as [c|] eqn:F; [|congruence].
  destruct (find_In_matches _ _ _ F) as [I M].
  exists c. split; [exact I|]. split.
  { destruct n as [|z|neg]; try discriminate M. cbn in M.
    apply Z.eqb_eq in M. now subst z. }
  split.
  { unfold get_client_among. fold n.
    assert (K1 : existsb (id_matches n) (rows s1) = true).
    { rewrite Hr, updated_existing. apply find_existsb. congruence. }
    rewrite (validateId_existing _ _ K1 O1). cbn [valid negb].
    unfold db_get_by_id.
    pose proof (Out (snd (next_outcome s1))) as O2'. rewrite O2 in O2'.
    destruct (next_outcome (others (snd (next_outcome s1)))) as [o s3].
    cbn [fst] in O2'. subst o.
    rewrite Same, next_outcome_rows, Hr, find_updated, F. reflexivity. }
  split; [reflexivity|].
  unfold changed, new_status, new_priority. cbn [status priority].
  split; [|split; [|split; [|split]]].
  - intros st -> Hst. cbn [truthy].
    destruct st; [congruence | reflexivity].
  - intros ->. reflexivity.
  - intros w B P. destruct (body_priority req); [|congruence].
    rewrite P. reflexivity.
  - intros k B Hk. pose proof (parseInt_priority_digits _ k B) as P.
    destruct (body_priority req);
      [|destruct B as [B|[B _]]; discriminate B].
    rewrite P. apply to_double_N. exact Hk.
  - intros ->. reflexivity.
Qed.

Lemma X12_update_then_get_witness :
  let req := mkPut "2" (Some (JString "backlog")) (Some (JString "3")) in
  let s1 := mkStore [alice; mkClient 2 "Bob" "second client" "backlog" 3] [] in
  (put_client req board = (Send 200 (Rows (rows s1)), s1) /\
   succeed 2 s1 = true) /\
  fst (get_client (params_id req) s1) =
    Send 200 (Row (mkClient 2 "Bob" "second client" "backlog" 3)) /\
  exists c,
    In c (rows board) /\
    parseInt_string (params_id req) 10 = Int (id c) /\
    fst (get_client (params_id req) s1) = Send 200 (Row (changed req c)).
Proof.
  split; [split; reflexivity|]. split; [reflexivity|].
  destruct (X12_update_then_get (fun t => t)
              (mkPut "2" (Some (JString "backlog")) (Some (JString "3")))
              board
              (mkStore [alice; mkClient 2 "Bob" "second client" "backlog" 3] [])
              (Rows [alice; mkClient 2 "Bob" "second client" "backlog" 3])
              eq_refl (fun t => eq_refl) (fun t => eq_refl) eq_refl)
    as [c [I [P [G _]]]].
  exists c. split; [exact I|]. split; [exact P | exact G].
Defined.

Lemma updated_commute (n1 n2 : number) (r1 r2 : put_request)
  (l : list client) :
  n1 <> n2 ->
  updated n2 r2 (updated n1 r1 l) = updated n1 r1 (updated n2 r2 l).
Proof.
  intros D. unfold updated. rewrite !map_map. apply map_ext. intros c.
  destruct (id_matches n1 c) eqn:M1, (id_matches n2 c) eqn:M2;
    rewrite ?id_matches_changed, ?M1, ?M2; try reflexivity.
  destruct n1 as [|z1|g1], n2 as [|z2|g2]; try discriminate.
  cbn in M1, M2. apply Z.eqb_eq in M1, M2. congruence.
Qed.

(** X13: accepted updates of two different identifiers commute: applied in
    either order they leave the same table and the second one returns the
    same body. *)
Theorem X13_updates_of_two_records_commute (r1 r2 : put_request)
  (s s1 s12 s2 s21 : store) (b1 b12 b2 b21 : body) :
  parseInt_string (params_id r1) 10 <> parseInt_string (params_id r2) 10 ->
  put_client r1 s = (Send 200 b1, s1) ->
  put_client r2 s1 = (Send 200 b12, s12) ->
  put_client r2 s = (Send 200 b2, s2) ->
  put_client r1 s2 = (Send 200 b21, s21) ->
  rows s12 = rows s21 /\ b12 = b21.
Proof.
  intros D E1 E12 E2 E21.
  destruct (put_client_200 _ _ _ _ E1) as [_ [R1 _]].
  destruct (put_client_200 _ _ _ _ E12) as [B12 [R12 _]].
  destruct (put_client_200 _ _ _ _ E2) as [_ [R2 _]].
  destruct (put_client_200 _ _ _ _ E21) as [B21 [R21 _]].
  assert (R : rows s12 = rows s21).
  { rewrite R12, R1, R21, R2. apply updated_commute. exact D. }
  split; [exact R|]. rewrite B12, B21, R. reflexivity.
Qed.

Lemma X13_updates_of_two_records_commute_witness :
  let r1 := mkPut "1" (Some (JString "complete")) None in
  let r2 := mkPut "2" None (Some (JString "9")) in
  let a' := mkClient 1 "Alice" "first client" "complete" 1 in
  let b' := mkClient 2 "Bob" "second client" "complete" 9 in
  (parseInt_string (params_id r1) 10 <> parseInt_string (params_id r2) 10 /\
   put_client r1 board = (Send 200 (Rows [a'; bob]), mkStore [a'; bob] []) /\
   put_client r2 (mkStore [a'; bob] []) =
     (Send 200 (Rows [a'; b']), mkStore [a'; b'] []) /\
   put_client r2 board = (Send 200 (Rows [alice; b']), mkStore [alice; b'] []) /\
   put_client r1 (mkStore [alice; b'] []) =
     (Send 200 (Rows [a'; b']), mkStore [a'; b'] [])) /\
  rows (mkStore [mkClient 1 "Alice" "first client" "complete" 1;
                 mkClient 2 "Bob" "second client" "complete" 9] []) =
  rows (mkStore [mkClient 1 "Alice" "first client" "complete" 1;
                 mkClient 2 "Bob" "second client" "complete" 9] []) /\
  Rows [mkClient 1 "Alice" "first client" "complete" 1;
        mkClient 2 "Bob" "second client" "complete" 9] =
  Rows [mkClient 1 "Alice" "first client" "complete" 1;
        mkClient 2 "Bob" "second client" "complete" 9].
Proof.
  assert (D : parseInt_string "1" 10 <> parseInt_string "2" 10)
    by (vm_compute; discriminate).
  split; [split; [exact D | repeat split]|].
  apply (X13_updates_of_two_records_commute
           (mkPut "1" (Some (JString "complete")) None)
           (mkPut "2" None (Some (JString "9")))
           board
           (mkStore [mkClient 1 "Alice" "first client" "complete" 1; bob] [])
           (mkStore [mkClient 1 "Alice" "first client" "complete" 1;
                     mkClient 2 "Bob" "second client" "complete" 9] [])
           (mkStore [alice; mkClient 2 "Bob" "second client" "complete" 9] [])
           (mkStore [mkClient 1 "Alice" "first client" "complete" 1;
                     mkClient 2 "Bob" "second client" "complete" 9] [])
           (Rows [mkClient 1 "Alice" "first client" "complete" 1; bob])
           (Rows [mkClient 1 "Alice" "first client" "complete" 1;
                  mkClient 2 "Bob" "second client" "complete" 9])
           (Rows [alice; mkClient 2 "Bob" "second client" "complete" 9])
           (Rows [mkClient 1 "Alice" "first client" "complete" 1;
                  mkClient 2 "Bob" "second client" "complete" 9])
           D); reflexivity.
Defined.

(** ** The identifier validator *)

(** X14: with its lookup answered, the identifier validator says valid
    exactly when a row of the table has the integer as identifier; it never
    changes the table, and for [NaN] it does not call the store. *)
Theorem X14_validateId_decides_existence (n : number) (s : store) :
  rows (snd (validateId n s)) = rows s /\
  (isNaN n = true -> snd (validateId n s) = s) /\
  (fst (next_outcome s) = None ->
   valid (fst (validateId n s)) = existsb (id_matches n) (rows s)).
Proof.
  split; [apply validateId_rows|]. split.
  - intros N. unfold validateId. rewrite N. reflexivity.
  - intros O. destruct (existsb (id_matches n) (rows s)) eqn:K.
    + rewrite (validateId_existing _ _ K O). reflexivity.
    + apply (validateId_missing _ _ K O).
Qed.

Lemma X14_validateId_decides_existence_witness :
  fst (next_outcome board) = None /\
  valid (fst (validateId (Int 2) board)) = true /\
  valid (fst (validateId (Int 7) board)) = false.
Proof.
  split; [reflexivity|]. split.
  - destruct (X14_validateId_decides_existence (Int 2) board) as [_ [_ H]].
    rewrite (H eq_refl). reflexivity.
  - destruct (X14_validateId_decides_existence (Int 7) board) as [_ [_ H]].
    rewrite (H eq_refl). reflexivity.
Defined.

(** ** Later requests on the same record *)

Lemma changed_over (r1 r2 : put_request) (u : list string) (p : list param)
  (c : client) :
  collect_updates (body_status r2) (body_priority r2) = inr (u, p) ->
  truthy (body_status r2) = true -> body_priority r2 <> None ->
  changed r2 (changed r1 c) = changed r2 c.
Proof.
  intros C T B. destruct r2 as [raw bs bp].
  cbn [body_status body_priority] in *.
  destruct (collect_updates_prepare raw bs bp u p NaN C)
    as [f [_ [_ [Hs [Hp _]]]]].
  destruct (includes_statuses _ (Hs T)) as [st [-> _]].
  destruct (Hp B) as [z [P _]].
  unfold changed, new_status, new_priority.
  cbn [id name description status priority body_status body_priority].
  rewrite T. destruct bp as [j|]; [|congruence]. rewrite P. reflexivity.
Qed.

(** X15: the last write wins: an accepted update that sends both a status
    and a priority leaves the table the same whether or not an accepted
    update of the same identifier came before it. *)
Theorem X15_later_update_overwrites (r1 r2 : put_request)
  (s s1 s12 s2 : store) (b1 b12 b2 : body) :
  parseInt_string (params_id r1) 10 = parseInt_string (params_id r2) 10 ->
  truthy (body_status r2) = true ->
  body_priority r2 <> None ->
  put_client r1 s = (Send 200 b1, s1) ->
  put_client r2 s1 = (Send 200 b12, s12) ->
  put_client r2 s = (Send 200 b2, s2) ->
  rows s12 = rows s2 /\ b12 = b2.
Proof.
  intros D T B E1 E12 E2.
  destruct (put_client_200 _ _ _ _ E1) as [_ [R1 _]].
  destruct (put_client_200 _ _ _ _ E12) as [B12 [R12 _]].
  destruct (put_client_200 _ _ _ _ E2) as [B2 [R2 [_ [_ [u [p C]]]]]].
  assert (R : rows s12 = rows s2).
  { rewrite R12, R1, R2, D. unfold updated. rewrite map_map.
    apply map_ext. intros c.
    destruct (id_matches _ c) eqn:M.
    - rewrite id_matches_changed, M. apply (changed_over r1 r2 u p c C T B).
    - rewrite M. reflexivity. }
  split; [exact R|]. rewrite B12, B2, R. reflexivity.
Qed.

Lemma X15_later_update_overwrites_witness :
  let r1 := mkPut "2" (Some (JString "backlog")) (Some (JString "8")) in
  let r2 := mkPut "2" (Some (JString "in-progress")) (Some (JString "2")) in
  let b1 := mkClient 2 "Bob" "second client" "backlog" 8 in
  let b2 := mkClient 2 "Bob" "second client" "in-progress" 2 in
  (put_client r1 board = (Send 200 (Rows [alice; b1]), mkStore [alice; b1] []) /\
   put_client r2 (mkStore [alice; b1] []) =
     (Send 200 (Rows [alice; b2]), mkStore [alice; b2] []) /\
   put_client r2 board = (Send 200 (Rows [alice; b2]), mkStore [alice; b2] [])) /\
  rows (mkStore [alice; mkClient 2 "Bob" "second client" "in-progress" 2] []) =
  rows (mkStore [alice; mkClient 2 "Bob" "second client" "in-progress" 2] []) /\
  Rows [alice; mkClient 2 "Bob" "second client" "in-progress" 2] =
  Rows [alice; mkClient 2 "Bob" "second client" "in-progress" 2].
Proof.
  split; [repeat split|].
  assert (B : body_priority
                (mkPut "2" (Some (JString "in-progress")) (Some (JString "2")))
              <> None) by discriminate.
  apply (X15_later_update_overwrites
           (mkPut "2" (Some (JString "backlog")) (Some (JString "8")))
           (mkPut "2" (Some (JString "in-progress")) (Some (JString "2")))
           board
           (mkStore [alice; mkClient 2 "Bob" "second client" "backlog" 8] [])
           (mkStore [alice; mkClient 2 "Bob" "second client" "in-progress" 2] [])
           (mkStore [alice; mkClient 2 "Bob" "second client" "in-progress" 2] [])
           (Rows [alice; mkClient 2 "Bob" "second client" "backlog" 8])
           (Rows [alice; mkClient 2 "Bob" "second client" "in-progress" 2])
           (Rows [alice; mkClient 2 "Bob" "second client" "in-progress" 2])
           eq_refl eq_refl B); reflexivity.
Defined.

(** X16: after an accepted update that sends a status, the list of that
    status contains every row the update addressed. *)
Theorem X16_update_then_list (req : put_request) (s s1 : store) (b : body)
  (st : string) :
  put_client req s = (Send 200 b, s1) ->
  body_status req = Some (JString st) -> st <> "" ->
  succeed 1 s1 = true ->
  exists l,
    fst (get_clients (Some (JString st)) s1) = Send 200 (Rows l) /\
    forall c, In c (rows s1) ->
              id_matches (parseInt_string (params_id req) 10) c = true ->
              In c l.
Proof.
  intros E Hs Hst S.
  destruct (put_client_200 req s b s1 E) as [_ [Hr [_ [_ [u [p C]]]]]].
  assert (T : truthy (Some (JString st)) = true)
    by (destruct st; [congruence | reflexivity]).
  destruct req as [raw bs bp]. cbn [body_status body_priority params_id] in *.
  subst bs.
  destruct (collect_updates_prepare raw _ bp u p NaN C)
    as [f [_ [_ [Hi _]]]].
  pose proof (Hi T) as Inc.
  destruct (succeed_next _ _ S) as [O _].
  unfold get_clients. rewrite T, Inc. cbn [andb negb].
  unfold db_all_by_status. destruct (next_outcome s1) as [o s2].
  cbn [fst] in O. subst o. eexists. split; [reflexivity|].
  intros c I M. apply filter_In. split; [exact I|].
  rewrite Hr in I. destruct (updated_In _ _ _ _ I M) as [c0 [_ [_ ->]]].
  unfold changed, new_status. cbn [status body_status]. rewrite T.
  apply String.eqb_refl.
Qed.

Lemma X16_update_then_list_witness :
  let req := mkPut "1" (Some (JString "complete")) None in
  let a' := mkClient 1 "Alice" "first client" "complete" 1 in
  (put_client req board = (Send 200 (Rows [a'; bob]), mkStore [a'; bob] []) /\
   succeed 1 (mkStore [a'; bob] []) = true) /\
  exists l,
    fst (get_clients (Some (JString "complete")) (mkStore [a'; bob] []))
      = Send 200 (Rows l) /\
    forall c, In c [a'; bob] -> id_matches (Int 1) c = true -> In c l.
Proof.
  split; [split; reflexivity|].
  assert (N : "complete" <> "") by discriminate.
  apply (X16_update_then_list
           (mkPut "1" (Some (JString "complete")) None) board
           (mkStore [mkClient 1 "Alice" "first client" "complete" 1; bob] [])
           (Rows [mkClient 1 "Alice" "first client" "complete" 1; bob])
           "complete" eq_refl eq_refl N eq_refl).
Defined.

(** ** A priority that cannot be converted *)

(** X17: a priority that is an object with a key [toString] cannot be
    converted to a string: on an existing identifier, and with a status that
    does not stop the request first, the handler throws inside its callback;
    no response is sent and nothing is written. *)
Theorem X17_unconvertible_priority_throws (req : put_request) (s : store)
  (l : list (string * json)) :
  existing (params_id req) s = true ->
  succeed 2 s = true ->
  truthy (body_status req) = false \/
    includes statuses (body_status req) = true ->
  body_priority req = Some (JObject l) ->
  existsb (fun kv => fst kv =? "toString")%string l = true ->
  fst (put_client req s) = Throws /\
  rows (snd (put_client req s)) = rows s.
Proof.
  intros K S St B H. apply put_client_rejects_rows; [exact K | exact S |].
  unfold collect_updates. rewrite B. cbn [parseInt ToString]. rewrite H.
  cbn [option_map].
  destruct (truthy (body_status req)); [|reflexivity].
  destruct St as [St|St]; [discriminate|]. rewrite St. reflexivity.
Qed.

Lemma X17_unconvertible_priority_throws_witness :
  let req := mkPut "1" None (Some (JObject [("toString", JNull)])) in
  (existing (params_id req) board = true /\ succeed 2 board = true) /\
  fst (put_client req board) = Throws /\
  rows (snd (put_client req board)) = rows board.
Proof.
  split; [split; reflexivity|].
  apply (X17_unconvertible_priority_throws
           (mkPut "1" None (Some (JObject [("toString", JNull)]))) board
           [("toString", JNull)]); try reflexivity.
  left; reflexivity.
Defined.
